(** * Coronary artery scores: SYNTAX, Gensini and CAD-RADS

    A shallow embedding of the scoring code of the repository and of the
    text normalisation in front of it:

    - [Patient]: the lesion and patient records of
      [src/coronary_score/models/patient.py];
    - [VesselSegments], [VesselSegmentTable]: the tables of
      [src/coronary_score/utils/vessel_segments.py];
    - [SyntaxCalculator], [GensiniCalculator], [CadRadsCalculator]: the three
      calculators of [src/coronary_score/calculators/];
    - [Validation]: [src/coronary_score/utils/validation.py];
    - [CoronaryScoreCalculator]: the dictionary based calculator of
      [single_sheet_processor.py];
    - [Dialog]: stenosis text extraction, aggregation and merge of
      [run_scoring_with_dialog.py];
    - [Converter], [ConverterValues]: the column analysis and the
      normalisation of the values of [智能转换器.py].

    Exceptions.  The records of [patient.py] are pydantic models with
    [use_enum_values = True]: a field declared with an enum type holds the
    value of the member, a plain [str].  The package calculators read
    [.value] from such fields, which raises [AttributeError].  The
    calculators are therefore functions into [result], and a raise ends
    them.

    Numbers.  A Python [float] is an IEEE binary64 number and is read as the
    rational number it denotes ([Q]); comparisons are exact.  Where the code
    multiplies by 0.7, 0.4 or 0.8, divides by 100 or adds such products,
    the operations are the float operations [fmul], [fdiv] and [fadd], which
    round the exact result to the nearest float.  The tables of the package
    calculators hold multiples of 0.5 and their factors are 1, 1.5, 2, 5 and
    powers of two: these products and sums are multiples of 0.25, exact in
    binary64, and are written with the operations of [Q]. *)

From Stdlib Require Import QArith Qround Qabs ZArith NArith List Bool Lia Lqa.
From Stdlib Require Import String Ascii DecimalString.
From Stdlib Require Import Permutation.
Import ListNotations.

Open Scope Q_scope.

(** ** Numbers *)

Definition Qleb (x y : Q) : bool := Qle_bool x y.
Definition Qltb (x y : Q) : bool := negb (Qle_bool y x).
Definition Qgeb (x y : Q) : bool := Qle_bool y x.
Definition Qgtb (x y : Q) : bool := negb (Qle_bool x y).
Definition Qeqb (x y : Q) : bool := Qeq_bool x y.

(** The integer nearest to [y], a tie going to the even one. *)
Definition half_even (y : Q) : Z :=
  let f := Qfloor y in
  let r := y - inject_Z f in
  if Qltb r (1 # 2) then f
  else if Qltb (1 # 2) r then (f + 1)%Z
  else if Z.even f then f else (f + 1)%Z.

Definition pow2 (e : Z) : Q := Qpower 2 e.

(** The binary64 number nearest to [q], a tie going to the one whose
    significand is even.  The significand has 53 bits and the exponent of
    its last bit is not below -1074, where the subnormal numbers are.  (The
    largest binary64 number is about 1.8e308; nothing here comes near
    it.) *)
Definition round53 (q : Q) : Q :=
  let r := Qred q in
  if Qeqb r 0 then 0
  else
    let a := Z.abs (Qnum r) in
    let d := Zpos (Qden r) in
    let e0 := (Z.log2 a - Z.log2 d - 52)%Z in
    let e1 := if Qltb (Qabs r / pow2 e0) (pow2 52) then (e0 - 1)%Z else e0 in
    let e := Z.max e1 (-1074) in
    let m := half_even (Qabs r / pow2 e) in
    Qred ((if Qltb r 0 then - inject_Z m else inject_Z m) * pow2 e).

(** A float literal of the source, such as [0.7]. *)
Definition float_literal (q : Q) : Q := round53 q.

(** [x + y], [x * y] and [x / y] on floats. *)
Definition fadd (x y : Q) : Q := round53 (x + y).
Definition fmul (x y : Q) : Q := round53 (x * y).
Definition fdiv (x y : Q) : Q := round53 (x / y).

(** [round(x, ndigits)] on a float: the decimal with [ndigits] places
    nearest to the exact value of [x], a tie going to the even one, and of
    that decimal the nearest float. *)
Definition py_round (x : Q) (ndigits : nat) : Q :=
  let scale := inject_Z (10 ^ Z.of_nat ndigits) in
  round53 (inject_Z (half_even (x * scale)) / scale).

(** [max(xs)] of Python on a non-empty sequence: the first maximal element. *)
Fixpoint py_max_from (best : Q) (xs : list Q) : Q :=
  match xs with
  | [] => best
  | x :: xs' => py_max_from (if Qltb best x then x else best) xs'
  end.

Definition py_max (xs : list Q) : option Q :=
  match xs with
  | [] => None
  | x :: xs' => Some (py_max_from x xs')
  end.

(** A Python [dict] with insertion order: an association list whose keys are
    pairwise distinct.  [dict_get] is [d.get(k)], [dict_set] is [d[k] = v]. *)
Section Dict.
Context {K V : Type} (keq : K -> K -> bool).

Fixpoint dict_get (d : list (K * V)) (k : K) : option V :=
  match d with
  | [] => None
  | (k', v) :: d' => if keq k k' then Some v else dict_get d' k
  end.

Definition dict_get_default (d : list (K * V)) (k : K) (dflt : V) : V :=
  match dict_get d k with
  | Some v => v
  | None => dflt
  end.

Fixpoint dict_set (d : list (K * V)) (k : K) (v : V) : list (K * V) :=
  match d with
  | [] => [(k, v)]
  | (k', v') :: d' =>
      if keq k k' then (k', v) :: d' else (k', v') :: dict_set d' k v
  end.

Definition dict_mem (d : list (K * V)) (k : K) : bool :=
  match dict_get d k with
  | Some _ => true
  | None => false
  end.
End Dict.


(** ** Exceptions

    A call returns a value or raises.  The one exception that the
    calculators raise is [AttributeError]. *)

Inductive exn := AttributeError.

Inductive result (A : Type) : Type :=
| Ok (a : A)
| Raise (e : exn).

Arguments Ok {A} a.
Arguments Raise {A} e.

Definition bind {A B : Type} (r : result A) (k : A -> result B) : result B :=
  match r with
  | Ok a => k a
  | Raise e => Raise e
  end.

Notation "x <- r ;; k" := (bind r (fun x => k))
  (at level 61, r at next level, right associativity).

(** A [for] loop whose body may raise: the state after the last turn, or the
    first exception. *)
Fixpoint for_each {A S : Type} (body : S -> A -> result S) (xs : list A)
    (st : S) : result S :=
  match xs with
  | [] => Ok st
  | x :: xs' => st' <- body st x ;; for_each body xs' st'
  end.

(** ** Python strings

    A [str] is the list of its code points.  String literals of the source
    are written [u "..."], the code points of the UTF-8 text between the
    quotes. *)

Definition str : Type := list N.

Fixpoint utf8_decode (bytes : list N) : str :=
  match bytes with
  | [] => []
  | b :: rest =>
      if (b <? 128)%N then b :: utf8_decode rest
      else if (b <? 224)%N then
        match rest with
        | b2 :: rest' => ((b - 192) * 64 + (b2 - 128))%N :: utf8_decode rest'
        | _ => []
        end
      else if (b <? 240)%N then
        match rest with
        | b2 :: b3 :: rest' =>
            ((b - 224) * 4096 + (b2 - 128) * 64 + (b3 - 128))%N
              :: utf8_decode rest'
        | _ => []
        end
      else
        match rest with
        | b2 :: b3 :: b4 :: rest' =>
            ((b - 240) * 262144 + (b2 - 128) * 4096
             + (b3 - 128) * 64 + (b4 - 128))%N :: utf8_decode rest'
        | _ => []
        end
  end.

Definition u (s : string) : str :=
  utf8_decode (map N_of_ascii (list_ascii_of_string s)).

Arguments u s%_string.

Fixpoint str_eqb (a b : str) : bool :=
  match a, b with
  | [], [] => true
  | x :: a', y :: b' => (x =? y)%N && str_eqb a' b'
  | _, _ => false
  end.

Fixpoint startswith (prefix s : str) : bool :=
  match prefix, s with
  | [], _ => true
  | x :: prefix', y :: s' => (x =? y)%N && startswith prefix' s'
  | _ :: _, [] => false
  end.

(** [needle in s]. *)
Fixpoint contains (needle s : str) : bool :=
  startswith needle s ||
  match s with
  | [] => false
  | _ :: s' => contains needle s'
  end.

(** [any(k in s for k in keywords)]. *)
Definition contains_any (keywords : list str) (s : str) : bool :=
  existsb (fun k => contains k s) keywords.

(** What the code takes from the interpreter's character tables:
    [str.isspace] on a character, [str.lower], and the value of a decimal
    digit (the characters that [\d] matches and that [float] reads). *)
Class UnicodeData := {
  isspace : N -> bool;
  lower : str -> str;
  decimal : N -> option N
}.

(** The tables on ASCII letters and digits, with the white space of Unicode.
    They agree with Python on every string whose characters are ASCII or
    CJK ideographs. *)
Definition ascii_isspace (c : N) : bool :=
  ((9 <=? c) && (c <=? 13) || (28 <=? c) && (c <=? 32)
   || (c =? 133) || (c =? 160) || (c =? 5760)
   || (8192 <=? c) && (c <=? 8202)
   || (c =? 8232) || (c =? 8233) || (c =? 8239) || (c =? 8287)
   || (c =? 12288))%N.

Definition ascii_lower_char (c : N) : N :=
  if ((65 <=? c) && (c <=? 90))%N then (c + 32)%N else c.

Definition ascii_decimal (c : N) : option N :=
  if ((48 <=? c) && (c <=? 57))%N then Some (c - 48)%N else None.

#[export] Instance ascii_tables : UnicodeData := {
  isspace := ascii_isspace;
  lower := map ascii_lower_char;
  decimal := ascii_decimal
}.

Section StrOps.
Context `{UnicodeData}.

Fixpoint lstrip (s : str) : str :=
  match s with
  | [] => []
  | c :: s' => if isspace c then lstrip s' else s
  end.

(** [s.strip()]. *)
Definition strip (s : str) : str := rev (lstrip (rev (lstrip s))).

Definition is_digit (c : N) : bool :=
  match decimal c with
  | Some _ => true
  | None => false
  end.
End StrOps.

(** ** models/patient.py *)

Module Patient.

Inductive Gender := MALE | FEMALE.

Inductive VesselType := LAD | LCX | RCA | LM | OM | D | PLV | PDA.

Inductive StenosisLocation := PROXIMAL | MID | DISTAL.

Definition VesselType_eqb (a b : VesselType) : bool :=
  match a, b with
  | LAD, LAD | LCX, LCX | RCA, RCA | LM, LM
  | OM, OM | D, D | PLV, PLV | PDA, PDA => true
  | _, _ => false
  end.

(** [class Config: use_enum_values = True], on [VesselSegment], [Lesion] and
    [PatientData].  When such an object is built, a field declared with an
    enum type is validated and then holds the value of the member, which is
    a plain [str], and not the member: [Plain LAD] is the string "LAD",
    [Plain MID] the string "mid", [Plain FEMALE] the string "female".  All
    those fields are required, so none keeps a default member. *)
Inductive plain (E : Type) : Type := Plain (member : E).

Arguments Plain {E} member.

(** The three enums mix in [str]: a member is equal to the plain string of
    its value and has the same hash.  Such a string therefore finds the
    entry of its member in a dictionary whose keys are members ([d.get]),
    and meets [==] and [in] against members. *)
Definition as_member {E : Type} (x : plain E) : E :=
  match x with
  | Plain m => m
  end.

(** [x.value] where [x] is such a field: a [str] has no attribute
    [value]. *)
Definition value {E : Type} (x : plain E) : result str :=
  Raise AttributeError.

(** The truth value of such a field in a condition: no value of the three
    enums is the empty string. *)
Definition truthy_plain {E : Type} (x : plain E) : bool := true.

(** The fields of [Lesion] that the calculators read.  [lesion_id],
    [morphology], [is_treated] and [treatment_method] are never read by
    them and are left out. *)
Record Lesion := mkLesion {
  vessel : plain VesselType;
  segment_id : option Z;
  stenosis_percent : Q;
  location : plain StenosisLocation;
  length_mm : option Q;
  is_bifurcation : bool;
  is_ostial : bool;
  is_calcified : bool;
  is_tortuous : bool;
  is_cto : bool;
  thrombus_present : bool
}.

(** [Field(..., ge=0, le=100)] and [validate_stenosis_percent]. *)
Definition valid_stenosis (s : Q) : Prop := 0 <= s /\ s <= 100.

Record PatientData := mkPatientData {
  age : Z;
  gender : plain Gender;
  diabetes : bool;
  hypertension : bool;
  creatinine_mg_dl : option Q;
  ejection_fraction : option Q;
  lesions : list Lesion
}.

End Patient.

(** ** utils/vessel_segments.py *)

Module VesselSegments.

Definition GENSINI_WEIGHTS : list (Z * Q) :=
  [ (1%Z, 1); (2%Z, 1); (3%Z, 1); (4%Z, 1); (5%Z, 5);
    (6%Z, 5 # 2); (7%Z, 3 # 2); (8%Z, 1); (9%Z, 1); (10%Z, 1 # 2);
    (11%Z, 5 # 2); (12%Z, 1); (13%Z, 1); (14%Z, 1); (15%Z, 1 # 2);
    (16%Z, 1 # 2) ].

End VesselSegments.

(** Truth value of an optional number in a condition ([if x and ...]):
    [None] and zero are false. *)
Definition truthy_Z (x : option Z) : bool :=
  match x with
  | Some z => negb (z =? 0)%Z
  | None => false
  end.

Definition truthy_Q (x : option Q) : bool :=
  match x with
  | Some q => negb (Qeqb q 0)
  | None => false
  end.

(** ** calculators/syntax_calculator.py *)

Module SyntaxCalculator.
Import Patient.

Definition VESSEL_WEIGHTS : list (Z * Q) :=
  [ (5%Z, 5);
    (6%Z, 7 # 2); (7%Z, 5 # 2); (8%Z, 1); (9%Z, 1); (10%Z, 1 # 2);
    (11%Z, 7 # 2); (12%Z, 1); (13%Z, 1); (14%Z, 1); (15%Z, 1 # 2);
    (1%Z, 7 # 2); (2%Z, 1); (3%Z, 1); (4%Z, 1); (16%Z, 1 # 2) ].

Inductive complexity_key :=
| bifurcation | ostial | severe_calcification | thrombus
| diffuse_disease | chronic_occlusion | tortuous.

Definition COMPLEXITY_SCORES (k : complexity_key) : Q :=
  match k with
  | bifurcation => 1
  | ostial => 1 # 2
  | severe_calcification => 2
  | thrombus => 1
  | diffuse_disease => 1
  | chronic_occlusion => 5
  | tortuous => 1
  end.

Inductive RiskCategory := low | intermediate | high.

Record Result := mkResult {
  total_score : Q;
  anatomical_score : Q;
  clinical_score : Q;
  syntax_ii_score : Q;
  risk_category : RiskCategory
}.

(** An entry of [vessel_mapping]: a segment id, or a dictionary from the
    location to a segment id. *)
Inductive segment_entry :=
| Segment (id : Z)
| ByLocation (proximal mid distal : Z).

Definition vessel_mapping (v : VesselType) : option segment_entry :=
  match v with
  | LM => Some (Segment 5)
  | LAD => Some (ByLocation 6 7 8)
  | LCX => Some (ByLocation 11 13 14)
  | RCA => Some (ByLocation 1 2 3)
  | _ => None
  end.

(** [vessel_map.get(key, 1)] on the dictionary of a vessel. *)
Definition by_location (proximal mid distal : Z) (key : str) : Z :=
  if str_eqb key (u "proximal") then proximal
  else if str_eqb key (u "mid") then mid
  else if str_eqb key (u "distal") then distal
  else 1%Z.

Definition _get_segment_id (lesion : Lesion) : result Z :=
  if truthy_Z (segment_id lesion) then
    Ok (match segment_id lesion with Some id => id | None => 1%Z end)
  else
    match vessel_mapping (as_member (vessel lesion)) with
    | Some (ByLocation proximal mid distal) =>
        location_value <- value (location lesion) ;;
        Ok (by_location proximal mid distal location_value)
    | Some (Segment id) => Ok (if (id =? 0)%Z then 1%Z else id)
    | None => Ok 1%Z
    end.

(** The local [weight] of [_get_base_score]. *)
Definition segment_weight (lesion : Lesion) : result Q :=
  segment_id <- _get_segment_id lesion ;;
  Ok (dict_get_default Z.eqb VESSEL_WEIGHTS segment_id 1).

Definition stenosis_factor (lesion : Lesion) : Q :=
  if Qgeb (stenosis_percent lesion) 99 then 5
  else if Qgeb (stenosis_percent lesion) 90 then 2
  else if Qgeb (stenosis_percent lesion) 70 then 3 # 2
  else 1.

Definition _get_base_score (lesion : Lesion) : result Q :=
  weight <- segment_weight lesion ;;
  Ok (weight * stenosis_factor lesion).

Definition add_if (b : bool) (x acc : Q) : Q :=
  if b then acc + x else acc.

Definition _get_complexity_score (lesion : Lesion) : Q :=
  let c := 0 in
  let c := add_if (is_bifurcation lesion) (COMPLEXITY_SCORES bifurcation) c in
  let c := add_if (is_ostial lesion) (COMPLEXITY_SCORES ostial) c in
  let c := add_if (is_calcified lesion)
             (COMPLEXITY_SCORES severe_calcification) c in
  let c := add_if (thrombus_present lesion) (COMPLEXITY_SCORES thrombus) c in
  let c := add_if (is_cto lesion) (COMPLEXITY_SCORES chronic_occlusion) c in
  let c := add_if (is_tortuous lesion) (COMPLEXITY_SCORES tortuous) c in
  let c := add_if (truthy_Q (length_mm lesion) &&
                   match length_mm lesion with
                   | Some len => Qgtb len 20
                   | None => false
                   end)
             (COMPLEXITY_SCORES diffuse_disease) c in
  c.

(** One turn of the loop of [_calculate_anatomical_score]. *)
Definition anatomical_step (total : Q) (lesion : Lesion) : result Q :=
  if Qltb (stenosis_percent lesion) 50 then Ok total
  else
    base_score <- _get_base_score lesion ;;
    let complexity_score := _get_complexity_score lesion in
    let lesion_score := base_score + complexity_score in
    Ok (total + lesion_score).

(** The value of [total_score] when the loop ends. *)
Definition anatomical_total (lesions : list Lesion) : result Q :=
  for_each anatomical_step lesions 0.

Definition _calculate_anatomical_score (lesions : list Lesion) : result Q :=
  total_score <- anatomical_total lesions ;;
  Ok (py_round total_score 1).

Definition _calculate_clinical_score (p : PatientData) : result Q :=
  let c := 0 in
  let c := if (age p >=? 80)%Z then c + 10
           else if (age p >=? 70)%Z then c + 5
           else if (age p >=? 60)%Z then c + 2
           else c in
  gender_value <- value (gender p) ;;
  let c := if str_eqb gender_value (u "female") then c + 2 else c in
  let c := add_if (diabetes p) 3 c in
  let c := add_if (truthy_Q (creatinine_mg_dl p) &&
                   match creatinine_mg_dl p with
                   | Some x => Qgtb x 2
                   | None => false
                   end) 4 c in
  let c := add_if (truthy_Q (ejection_fraction p) &&
                   match ejection_fraction p with
                   | Some x => Qltb x 50
                   | None => false
                   end) 3 c in
  Ok c.

Definition _calculate_syntax_ii_score (p : PatientData) (anatomical : Q)
    : result Q :=
  clinical_score <- _calculate_clinical_score p ;;
  let syntax_ii := fmul anatomical (fadd 1 (fdiv clinical_score 100)) in
  Ok (py_round syntax_ii 1).

Definition _get_risk_category (score : Q) : RiskCategory :=
  if Qleb score 22 then low
  else if Qleb score 32 then intermediate
  else high.

Definition calculate (p : PatientData) : result Result :=
  match lesions p with
  | [] => Ok (mkResult 0 0 0 0 low)
  | _ :: _ =>
      anatomical_score <- _calculate_anatomical_score (lesions p) ;;
      clinical_score <- _calculate_clinical_score p ;;
      syntax_ii_score <- _calculate_syntax_ii_score p anatomical_score ;;
      let risk_category := _get_risk_category anatomical_score in
      Ok (mkResult anatomical_score anatomical_score clinical_score
            syntax_ii_score risk_category)
  end.

End SyntaxCalculator.

(** ** calculators/gensini_calculator.py *)

Module GensiniCalculator.
Import Patient.

Definition STENOSIS_SCORES : list ((Z * Z) * Z) :=
  [ ((0, 25), 1); ((25, 50), 2); ((50, 75), 4);
    ((75, 90), 8); ((90, 99), 16); ((99, 100), 32) ]%Z.

Definition vessel_weights : list (Z * Q) := VesselSegments.GENSINI_WEIGHTS.

Inductive SeverityGrade := normal | mild | moderate | severe | critical.

Record Contribution := mkContribution {
  lesion_index : nat;
  c_vessel : str;
  c_stenosis_percent : Q;
  c_stenosis_score : Z;
  c_vessel_weight : Q;
  contribution : Q
}.

Record Result := mkResult {
  total_score : Q;
  vessel_scores : list (str * Q);
  lesion_contributions : list Contribution;
  severity_grade : SeverityGrade
}.

(** The loop of [_get_stenosis_score] over the items of a table. *)
Fixpoint stenosis_score_in (table : list ((Z * Z) * Z)) (s : Q) : Z :=
  match table with
  | [] => 0%Z
  | ((min_stenosis, max_stenosis), score) :: table' =>
      if Qltb (inject_Z min_stenosis) s && Qleb s (inject_Z max_stenosis)
      then score
      else stenosis_score_in table' s
  end.

Definition _get_stenosis_score (s : Q) : Z :=
  stenosis_score_in STENOSIS_SCORES s.

Definition default_weights (v : VesselType) : Q :=
  match v with
  | LM => 5
  | LAD => 5 # 2
  | LCX => 5 # 2
  | RCA => 1
  | OM => 1
  | D => 1
  | PDA => 1
  | PLV => 1 # 2
  end.

(** The second half of [_get_vessel_weight]: the weight taken from the
    vessel and the location. *)
Definition inferred_weight (lesion : Lesion) : result Q :=
  let vessel_type := as_member (vessel lesion) in
  let base_weight := default_weights vessel_type in
  if truthy_plain (location lesion) then
    location_value <- value (location lesion) ;;
    if str_eqb location_value (u "proximal") then
      match vessel_type with
      | LAD | LCX => Ok (5 # 2)
      | RCA => Ok 1
      | _ => Ok base_weight
      end
    else if str_eqb location_value (u "mid") then
      match vessel_type with
      | LAD | LCX => Ok (3 # 2)
      | RCA => Ok 1
      | _ => Ok base_weight
      end
    else if str_eqb location_value (u "distal") then Ok 1
    else Ok base_weight
  else Ok base_weight.

Definition _get_vessel_weight (lesion : Lesion) : result Q :=
  if truthy_Z (segment_id lesion) then
    match segment_id lesion with
    | Some id =>
        match dict_get Z.eqb vessel_weights id with
        | Some w => Ok w
        | None => inferred_weight lesion
        end
    | None => inferred_weight lesion
    end
  else inferred_weight lesion.

Definition _get_severity_grade (total : Q) : SeverityGrade :=
  if Qeqb total 0 then normal
  else if Qleb total 20 then mild
  else if Qleb total 40 then moderate
  else if Qleb total 80 then severe
  else critical.

(** The state of the loop of [calculate]: the index of the next lesion,
    [total_score], [vessel_scores] and [lesion_contributions]. *)
Definition loop_state : Type :=
  nat * Q * list (str * Q) * list Contribution.

Definition calculate_step (st : loop_state) (lesion : Lesion)
    : result loop_state :=
  let '(i, total, scores, contribs) := st in
  let stenosis_score := _get_stenosis_score (stenosis_percent lesion) in
  vessel_weight <- _get_vessel_weight lesion ;;
  let lesion_score := inject_Z stenosis_score * vessel_weight in
  vessel_key <- value (vessel lesion) ;;
  let scores :=
    if dict_mem str_eqb scores vessel_key then scores
    else dict_set str_eqb scores vessel_key 0 in
  let scores :=
    dict_set str_eqb scores vessel_key
      (dict_get_default str_eqb scores vessel_key 0 + lesion_score) in
  Ok (S i, total + lesion_score, scores,
      contribs ++ [mkContribution (i + 1) vessel_key (stenosis_percent lesion)
                     stenosis_score vessel_weight lesion_score]).

Definition calculate (p : PatientData) : result Result :=
  match lesions p with
  | [] => Ok (mkResult 0 [] [] normal)
  | _ :: _ =>
      st <- for_each calculate_step (lesions p) (O, 0, [], []) ;;
      let '(_, total, scores, contribs) := st in
      Ok (mkResult (py_round total 2) scores contribs
            (_get_severity_grade total))
  end.

End GensiniCalculator.

(** ** calculators/cad_rads_calculator.py *)

Module CadRadsCalculator.
Import Patient.

(** The ["range"] entries of [CADRADS_GRADES], in the order of the
    dictionary. *)
Definition CADRADS_GRADES : list (Z * (Z * Z)) :=
  [ (0, (0, 0)); (1, (1, 24)); (2, (25, 49));
    (3, (50, 69)); (4, (70, 99)); (5, (100, 100)) ]%Z.

Definition VESSEL_IMPORTANCE (v : VesselType) : Q :=
  match v with
  | LM => 5
  | LAD => 4
  | LCX => 3
  | RCA => 3
  | OM => 2
  | D => 2
  | PDA => 2
  | PLV => 1
  end.

Record Result := mkResult {
  overall_grade : Z;
  max_stenosis : Q;
  vessel_grades : list (str * Z);
  dominant_vessel : option str;
  recommendation : string;
  follow_up : string
}.

(** The loop of [_stenosis_to_grade] over the items of a table. *)
Fixpoint stenosis_to_grade_in (table : list (Z * (Z * Z))) (s : Q) : Z :=
  match table with
  | [] => 0%Z
  | (grade, (min_stenosis, max_stenosis)) :: table' =>
      if Qleb (inject_Z min_stenosis) s && Qleb s (inject_Z max_stenosis)
      then grade
      else stenosis_to_grade_in table' s
  end.

Definition _stenosis_to_grade (s : Q) : Z :=
  stenosis_to_grade_in CADRADS_GRADES s.

(** One turn of the first loop of [_calculate_vessel_grades], on
    [vessel_lesions]. *)
Definition group_step (groups : list (str * list Lesion)) (lesion : Lesion)
    : result (list (str * list Lesion)) :=
  vessel <- value (vessel lesion) ;;
  let groups :=
    if dict_mem str_eqb groups vessel then groups
    else dict_set str_eqb groups vessel [] in
  Ok (dict_set str_eqb groups vessel
        (dict_get_default str_eqb groups vessel [] ++ [lesion])).

Definition _calculate_vessel_grades (lesions : list Lesion)
    : result (list (str * Z)) :=
  vessel_lesions <- for_each group_step lesions [] ;;
  Ok (map (fun '(vessel, lesions_list) =>
             match py_max (map stenosis_percent lesions_list) with
             | Some max_stenosis => (vessel, _stenosis_to_grade max_stenosis)
             | None => (vessel, 0%Z)
             end)
        vessel_lesions).

(** One turn of the loop of [_find_dominant_vessel]; the keys of
    [vessel_scores] are the strings of the [vessel] fields. *)
Definition dominant_step (scores : list (VesselType * Q)) (lesion : Lesion)
    : list (VesselType * Q) :=
  let vessel := as_member (vessel lesion) in
  let stenosis_score := fdiv (stenosis_percent lesion) 100 in
  let importance_weight := VESSEL_IMPORTANCE vessel in
  let vessel_score := fmul stenosis_score importance_weight in
  let scores :=
    if dict_mem VesselType_eqb scores vessel then scores
    else dict_set VesselType_eqb scores vessel 0 in
  dict_set VesselType_eqb scores vessel
    (fadd (dict_get_default VesselType_eqb scores vessel 0) vessel_score).

(** [max(d, key=d.get)]: the first key whose value is maximal. *)
Fixpoint argmax_from (best : VesselType) (best_score : Q)
    (d : list (VesselType * Q)) : VesselType :=
  match d with
  | [] => best
  | (v, sc) :: d' =>
      if Qltb best_score sc then argmax_from v sc d'
      else argmax_from best best_score d'
  end.

(** The vessel that [_find_dominant_vessel] returns is the string of a
    [vessel] field. *)
Definition _find_dominant_vessel (lesions : list Lesion)
    : option (plain VesselType) :=
  match lesions with
  | [] => None
  | _ :: _ =>
      match fold_left dominant_step lesions [] with
      | [] => None
      | (v, sc) :: d => Some (Plain (argmax_from v sc d))
      end
  end.

Definition _get_recommendation (grade : Z) : string :=
  match grade with
  | 0%Z => "无冠脉病变，无需特殊处理"
  | 1%Z => "轻微冠脉病变，生活方式干预，控制危险因素"
  | 2%Z => "轻度冠脉病变，药物治疗，控制危险因素"
  | 3%Z => "中度冠脉病变，考虑功能学检查(如负荷试验)评估心肌缺血"
  | 4%Z => "重度冠脉病变，建议血管造影评估，考虑血运重建"
  | 5%Z => "完全闭塞，建议血管造影评估，考虑血运重建"
  | _ => "请咨询心血管专科医师"
  end%string.

Definition _get_follow_up_recommendation (grade : Z) : string :=
  match grade with
  | 0%Z => "5-10年复查冠脉CT(如有危险因素)"
  | 1%Z => "3-5年复查冠脉CT"
  | 2%Z => "2-3年复查冠脉CT或根据症状调整"
  | 3%Z => "1-2年复查或根据功能学检查结果调整"
  | 4%Z => "血运重建后按指南随访"
  | 5%Z => "血运重建后按指南随访"
  | _ => "请咨询心血管专科医师"
  end%string.

Definition Zmax_list (xs : list Z) : option Z :=
  match xs with
  | [] => None
  | x :: xs' => Some (fold_left Z.max xs' x)
  end.

Definition calculate (p : PatientData) : result Result :=
  match lesions p with
  | [] =>
      Ok (mkResult 0 0 [] None
            (_get_recommendation 0) (_get_follow_up_recommendation 0))
  | _ :: _ =>
      vessel_grades <- _calculate_vessel_grades (lesions p) ;;
      let overall_grade :=
        match Zmax_list (map snd vessel_grades) with
        | Some g => g
        | None => 0%Z
        end in
      let max_stenosis :=
        match py_max (map stenosis_percent (lesions p)) with
        | Some m => m
        | None => 0
        end in
      dominant_vessel <-
        match _find_dominant_vessel (lesions p) with
        | Some v => vessel_value <- value v ;; Ok (Some vessel_value)
        | None => Ok None
        end ;;
      Ok (mkResult overall_grade max_stenosis vessel_grades dominant_vessel
            (_get_recommendation overall_grade)
            (_get_follow_up_recommendation overall_grade))
  end.

End CadRadsCalculator.

(** ** single_sheet_processor.py: CoronaryScoreCalculator *)

Module CoronaryScoreCalculator.

(** A lesion dictionary, with the keys that the calculator reads.
    [stenosis_percent] and [vessel] are read with [lesion[...]]; the other
    keys are read with [lesion.get(key, default)], [None] standing for an
    absent key.  No other key is read, a [segment_id] in particular is
    not.  The arithmetic is that of floats. *)
Record lesion := mkLesion {
  stenosis_percent : Q;
  vessel : str;
  location : option str;
  is_bifurcation : bool;
  is_calcified : bool;
  is_cto : bool;
  is_ostial : bool;
  is_tortuous : bool;
  thrombus_present : bool;
  length_mm : option Q
}.

(** [self.vessel_weights]. *)
Definition vessel_weights : list (str * Q) :=
  [ (u "LM", 5); (u "LAD", 7 # 2); (u "LCX", 7 # 2); (u "RCA", 7 # 2);
    (u "OM", 1); (u "D", 1); (u "PDA", 1); (u "PLV", 1 # 2) ].

Inductive RiskCategory := low | intermediate | high.

Record LesionDetail := mkLesionDetail {
  d_vessel : str;
  d_stenosis_percent : Q;
  base_score : Q;
  complexity_score : Q;
  total_contribution : Q
}.

Record SyntaxResult := mkSyntaxResult {
  total_score : Q;
  risk_category : RiskCategory;
  lesion_details : list LesionDetail
}.

Definition get_location (l : lesion) : str :=
  match location l with
  | Some loc => loc
  | None => u "proximal"
  end.

(** [base_weight] of [calculate_syntax_score] after the location
    adjustment. *)
Definition syntax_base_weight (l : lesion) : Q :=
  let base_weight := dict_get_default str_eqb vessel_weights (vessel l) 1 in
  let location := get_location l in
  if str_eqb location (u "mid")
  then fmul base_weight (float_literal (7 # 10))
  else if str_eqb location (u "distal")
  then fmul base_weight (float_literal (4 # 10))
  else base_weight.

Definition syntax_stenosis_factor (stenosis : Q) : Q :=
  if Qgeb stenosis 99 then 5
  else if Qgeb stenosis 90 then 2
  else if Qgeb stenosis 70 then 3 # 2
  else 1.

Definition add_if (b : bool) (x acc : Q) : Q :=
  if b then fadd acc x else acc.

Definition syntax_complexity (l : lesion) : Q :=
  let c := 0 in
  let c := add_if (is_bifurcation l) 1 c in
  let c := add_if (is_calcified l) 2 c in
  let c := add_if (is_cto l) 5 c in
  let c := add_if (is_ostial l) (1 # 2) c in
  let c := add_if (is_tortuous l) 1 c in
  let c := add_if (thrombus_present l) 1 c in
  let length := match length_mm l with Some x => x | None => 0 end in
  add_if (Qgtb length 20) 1 c.

(** One turn of the loop of [calculate_syntax_score] on [total_score] and
    [lesion_details]. *)
Definition syntax_step (st : Q * list LesionDetail) (l : lesion)
    : Q * list LesionDetail :=
  let '(total, details) := st in
  let stenosis := stenosis_percent l in
  if Qltb stenosis 50 then (total, details)
  else
    let base :=
      fmul (syntax_base_weight l) (syntax_stenosis_factor stenosis) in
    let complexity := syntax_complexity l in
    let lesion_score := fadd base complexity in
    (fadd total lesion_score,
     details ++ [mkLesionDetail (vessel l) stenosis (py_round base 2)
                   (py_round complexity 2) (py_round lesion_score 2)]).

Definition calculate_syntax_score (lesions : list lesion) : SyntaxResult :=
  let '(total, details) := fold_left syntax_step lesions (0, []) in
  let risk :=
    if Qleb total 22 then low
    else if Qleb total 32 then intermediate
    else high in
  mkSyntaxResult (py_round total 1) risk details.

Record CadRadsResult := mkCadRadsResult {
  grade : Z;
  max_stenosis : Q;
  vessel_grades : list (str * Z)
}.

(** The chain of comparisons of [calculate_cad_rads_grade]. *)
Definition cad_rads_grade_of (stenosis : Q) : Z :=
  if Qeqb stenosis 0 then 0%Z
  else if Qleb stenosis 24 then 1%Z
  else if Qleb stenosis 49 then 2%Z
  else if Qleb stenosis 69 then 3%Z
  else if Qleb stenosis 99 then 4%Z
  else 5%Z.

Definition cad_rads_step (st : Z * Q * list (str * Z)) (l : lesion)
    : Z * Q * list (str * Z) :=
  let '(max_grade, max_s, grades) := st in
  let stenosis := stenosis_percent l in
  let g := cad_rads_grade_of stenosis in
  (Z.max max_grade g,
   (if Qltb max_s stenosis then stenosis else max_s),
   match dict_get str_eqb grades (vessel l) with
   | None => dict_set str_eqb grades (vessel l) g
   | Some g0 => dict_set str_eqb grades (vessel l) (Z.max g0 g)
   end).

Definition calculate_cad_rads_grade (lesions : list lesion) : CadRadsResult :=
  let '(max_grade, max_s, grades) :=
    fold_left cad_rads_step lesions (0%Z, 0, []) in
  mkCadRadsResult max_grade max_s grades.

Definition gensini_weights : list (str * Q) :=
  [ (u "LM", 5); (u "LAD", 5 # 2); (u "LCX", 5 # 2); (u "RCA", 1);
    (u "OM", 1); (u "D", 1); (u "PDA", 1); (u "PLV", 1 # 2) ].

Definition stenosis_scores : list ((Z * Z) * Z) :=
  [ ((0, 25), 1); ((25, 50), 2); ((50, 75), 4);
    ((75, 90), 8); ((90, 99), 16); ((99, 100), 32) ]%Z.

(** The inner loop of [calculate_gensini_score], which stops at the first
    interval that holds the stenosis. *)
Fixpoint gensini_stenosis_score_in (table : list ((Z * Z) * Z)) (s : Q) : Z :=
  match table with
  | [] => 0%Z
  | ((min_s, max_s), score) :: table' =>
      if Qltb (inject_Z min_s) s && Qleb s (inject_Z max_s) then score
      else gensini_stenosis_score_in table' s
  end.

Definition gensini_stenosis_score (s : Q) : Z :=
  gensini_stenosis_score_in stenosis_scores s.

(** [vessel_weight] of [calculate_gensini_score] after the location
    adjustment. *)
Definition gensini_vessel_weight (l : lesion) : Q :=
  let vessel_weight :=
    dict_get_default str_eqb gensini_weights (vessel l) 1 in
  let location := get_location l in
  if str_eqb location (u "mid")
  then fmul vessel_weight (float_literal (8 # 10))
  else if str_eqb location (u "distal")
  then fmul vessel_weight (float_literal (5 # 10))
  else vessel_weight.

Inductive GensiniCategory := normal | mild | moderate | severe | critical.

Record GensiniResult := mkGensiniResult {
  g_total_score : Q;
  g_vessel_scores : list (str * Q);
  g_risk_category : GensiniCategory
}.

Definition gensini_step (st : Q * list (str * Q)) (l : lesion)
    : Q * list (str * Q) :=
  let '(total, scores) := st in
  let lesion_score :=
    fmul (inject_Z (gensini_stenosis_score (stenosis_percent l)))
      (gensini_vessel_weight l) in
  let scores :=
    if dict_mem str_eqb scores (vessel l) then scores
    else dict_set str_eqb scores (vessel l) 0 in
  (fadd total lesion_score,
   dict_set str_eqb scores (vessel l)
     (fadd (dict_get_default str_eqb scores (vessel l) 0) lesion_score)).

Definition calculate_gensini_score (lesions : list lesion) : GensiniResult :=
  let '(total, scores) := fold_left gensini_step lesions (0, []) in
  let category :=
    if Qeqb total 0 then normal
    else if Qleb total 20 then mild
    else if Qleb total 40 then moderate
    else if Qleb total 80 then severe
    else critical in
  mkGensiniResult (py_round total 1) scores category.

End CoronaryScoreCalculator.
(** ** Tables

    A cell of an input table as the code sees it through [pd.isna] and
    [str]: a missing value, a text or an integer.  (A float cell that is not
    missing acts in this code as the text of its [str].)  A row gives the
    cell of each column name, the missing value for a column it does not
    have, as [row.get] does. *)

Inductive cell :=
| NaN
| Text (s : str)
| Int (z : Z).

Definition isna (c : cell) : bool :=
  match c with
  | NaN => true
  | _ => false
  end.

(** [str(c)], and the string that [astype(str)] writes. *)
Definition py_str (c : cell) : str :=
  match c with
  | NaN => u "nan"
  | Text s => s
  | Int z => u (DecimalString.NilZero.string_of_int (Z.to_int z))
  end.

Definition row : Type := str -> cell.

Record DataFrame := mkDataFrame {
  columns : list str;
  rows : list row
}.

Definition str_mem (x : str) (xs : list str) : bool :=
  existsb (str_eqb x) xs.

Definition is_empty (s : str) : bool :=
  match s with
  | [] => true
  | _ :: _ => false
  end.

(** ** run_scoring_with_dialog.py *)

Module Dialog.
Section WithTables.
Context `{UnicodeData}.

Definition SEGMENT_COLUMN_MAP : list (str * (str * str)) :=
  [ (u "右冠近段", (u "RCA", u "proximal"));
    (u "右冠中段", (u "RCA", u "mid"));
    (u "右冠远段", (u "RCA", u "distal"));
    (u "右冠-后降支", (u "PDA", u "distal"));
    (u "右冠-左室后侧支", (u "PLV", u "distal"));
    (u "左主干", (u "LM", u "proximal"));
    (u "左冠-前降支近段", (u "LAD", u "proximal"));
    (u "左冠-前降支中段", (u "LAD", u "mid"));
    (u "左冠-前降支远段", (u "LAD", u "distal"));
    (u "左冠-第一对角支", (u "D", u "distal"));
    (u "左冠-第二对角支", (u "D", u "distal"));
    (u "左冠-回旋支近段", (u "LCX", u "proximal"));
    (u "左冠-回旋支中段", (u "LCX", u "mid"));
    (u "左冠-回旋支远段", (u "LCX", u "distal"));
    (u "左冠-第一钝缘支", (u "OM", u "distal"));
    (u "左冠-第二钝缘支", (u "OM", u "distal"));
    (u "左冠-左房回旋支", (u "LCX", u "distal"));
    (u "左冠-左室后侧支", (u "PLV", u "distal"));
    (u "左冠-后降支", (u "PDA", u "distal")) ].

Record AggregatedScores := mkAggregatedScores {
  patient_id : str;
  syntax_score : Q;
  syntax_class : str;
  cad_rads_grade : Z;
  gensini_score : Q;
  gensini_class : str
}.

Definition DEFAULT_STSEX_MAP : list (str * str) :=
  [ (u "1", u "male"); (u "2", u "female");
    (u "m", u "male"); (u "male", u "male");
    (u "男", u "male"); (u "男性", u "male");
    (u "f", u "female"); (u "female", u "female");
    (u "女", u "female"); (u "女性", u "female") ].

Definition normalize_gender (value : cell) (stsex_map : list (str * str))
    : str :=
  if isna value then u "male"
  else
    let value_str := lower (strip (py_str value)) in
    dict_get_default str_eqb stsex_map value_str (u "male").

Definition STENOSIS_KEYWORDS : list str :=
  [ u "狭窄"; u "闭塞"; u "堵塞"; u "阻塞"; u "病变"; u "肌桥";
    u "正常"; u "未见狭窄"; u "无狭窄" ].

(** [re.findall(r"\d+\.?\d*", s)], as a scan of [s] from left to right.
    [cur] is the match under way, if any; [frac] tells that its dot has
    been read. *)
Fixpoint findall_from (cur : option str) (frac : bool) (s : str)
    : list str :=
  match s with
  | [] =>
      match cur with
      | Some m => [m]
      | None => []
      end
  | c :: s' =>
      match cur with
      | None =>
          if is_digit c then findall_from (Some [c]) false s'
          else findall_from None false s'
      | Some m =>
          if is_digit c then findall_from (Some (m ++ [c])) frac s'
          else if (c =? 46)%N && negb frac
          then findall_from (Some (m ++ [c])) true s'
          else m :: findall_from None false s'
      end
  end.

Definition findall_numbers (s : str) : list str :=
  findall_from None false s.

(** [float(n)] on a match of the pattern: the digits before the dot, then
    one tenth, one hundredth, ... for the digits after it. *)
Fixpoint float_from (int_part : Q) (scale : option Q) (n : str) : Q :=
  match n with
  | [] => int_part
  | c :: n' =>
      match decimal c with
      | Some d =>
          match scale with
          | None =>
              float_from (int_part * 10 + inject_Z (Z.of_N d)) None n'
          | Some sc =>
              float_from (int_part + inject_Z (Z.of_N d) * sc)
                (Some (sc / 10)) n'
          end
      | None => float_from int_part (Some (1 # 10)) n'
      end
  end.

Definition float_of (n : str) : Q := Qred (float_from 0 None n).

Definition extract_stenosis_percent (text : cell) (use_range_upper : bool)
    : option Q :=
  if isna text then None
  else
    let s := strip (py_str text) in
    if is_empty s then None
    else
      let has_percent := contains (u "%") s in
      let has_keyword := contains_any STENOSIS_KEYWORDS s in
      if negb has_percent && negb has_keyword then None
      else if contains_any [u "无狭窄"; u "正常"; u "未见狭窄"] s
      then Some 0
      else if contains_any [u "完全闭塞"; u "闭塞"; u "100%"; u "CTO"] s
      then Some 100
      else if contains (u "重度") s || contains (u "严重") s then Some 90
      else if contains (u "中度") s then Some 70
      else if contains (u "轻度") s then Some 50
      else
        let numbers := findall_numbers s in
        match numbers with
        | [] => None
        | _ :: _ =>
            let values := map float_of numbers in
            if use_range_upper &&
               contains_any [u "-"; u "~"; u "至"; u "—"; u "－"] s
            then py_max values
            else py_max values
        end.

(** A lesion dictionary yielded by [iter_lesions]. *)
Record lesion := mkLesion {
  l_patient_id : str;
  l_age : cell;
  l_gender : str;
  l_vessel : str;
  l_location : str;
  l_stenosis_percent : Q
}.

(** The body of the loop over [SEGMENT_COLUMN_MAP] in [iter_lesions], for
    one entry of the map: the lesions it yields, none when it reaches a
    [continue].  [pid], [age] and [gender] are the variables [patient_id]
    (after [str]), [age] and [gender] that the body reads.  ([iter_lesions]
    itself is not embedded: in the source its [for] statement stands between
    the body of the [try] and the [except] clause, which is no Python.) *)
Definition segment_lesions (df_columns : list str) (include_zero : bool)
    (r : row) (pid : str) (age : cell) (gender : str)
    (entry : str * (str * str)) : list lesion :=
  let '(col_name, (vessel, location)) := entry in
  if negb (str_mem col_name df_columns) then []
  else
    match extract_stenosis_percent (r col_name) true with
    | None => []
    | Some stenosis =>
        if Qeqb stenosis 0 && negb include_zero then []
        else [mkLesion pid age gender vessel location stenosis]
    end.

(** An entry of [patients] in [aggregate_scores]. *)
Record patient := mkPatient {
  p_patient_id : str;
  p_age : cell;
  p_gender : str;
  p_lesions : list lesion
}.

Definition group_step (patients : list (str * patient)) (l : lesion)
    : list (str * patient) :=
  let pid := l_patient_id l in
  match dict_get str_eqb patients pid with
  | None =>
      dict_set str_eqb patients pid
        (mkPatient pid (l_age l) (l_gender l) [l])
  | Some p =>
      dict_set str_eqb patients pid
        (mkPatient (p_patient_id p) (p_age p) (p_gender p)
           (p_lesions p ++ [l]))
  end.


End WithTables.

(** [aggregate_scores] builds a [CoronaryScoreCalculator] that the script
    imports from [single_sheet_processor_v2], a module that is not among
    the sources.  What [aggregate_scores] reads of the results of its three
    methods is a parameter here: the keys ["total_score"] and
    ["risk_category"] of the SYNTAX and of the Gensini result and the key
    ["grade"] of the CAD-RADS result. *)
Record ScoreResult := mkScoreResult {
  r_total_score : Q;
  r_risk_category : str
}.

Class ScoreCalculator := {
  calculate_syntax_score : patient -> ScoreResult;
  calculate_cad_rads_grade : patient -> Z;
  calculate_gensini_score : patient -> ScoreResult
}.

(** [str.title]. *)
Class UnicodeTitle := {
  title : str -> str
}.

(** What [astype(str)] makes of a missing value depends on the version of
    pandas: the text "nan" before pandas 3, the missing value itself from
    pandas 3 on. *)
Class Pandas := {
  astype_str_missing : cell
}.

Section WithCalculator.
Context `{ScoreCalculator} `{UnicodeTitle} `{Pandas}.

Definition aggregate_scores (lesions : list lesion)
    : list (str * AggregatedScores) :=
  let patients := fold_left group_step lesions [] in
  map (fun '(pid, patient) =>
         let syntax_result := calculate_syntax_score patient in
         let cad_result := calculate_cad_rads_grade patient in
         let gensini_result := calculate_gensini_score patient in
         (pid,
          mkAggregatedScores pid
            (r_total_score syntax_result)
            (title (r_risk_category syntax_result))
            cad_result
            (r_total_score gensini_result)
            (title (r_risk_category gensini_result))))
      patients.

(** A row of the merged table: the cells of the input columns and the five
    appended columns, [None] for a null. *)
Record merged_row := mkMergedRow {
  input_cells : row;
  SYNTAX_score : option Q;
  SYNTAX_class : option str;
  CAD_RADS_grade : option Z;
  Gensini_score : option Q;
  Gensini_class : option str
}.

(** [df["subjid"] = df["subjid"].astype(str)] on one row. *)
Definition subjid_astype_str (r : row) : row :=
  fun col =>
    if str_eqb col (u "subjid") then
      if isna (r (u "subjid")) then astype_str_missing
      else Text (py_str (r (u "subjid")))
    else r col.

Definition with_scores (r : row) (v : AggregatedScores) : merged_row :=
  mkMergedRow r (Some (syntax_score v)) (Some (syntax_class v))
    (Some (cad_rads_grade v)) (Some (gensini_score v))
    (Some (gensini_class v)).

Definition without_scores (r : row) : merged_row :=
  mkMergedRow r None None None None None.

(** The key [subjid] of a row of the left table is the key [patient_id] of
    a row of the right table, which is a string. *)
Definition same_key (subjid : cell) (v : AggregatedScores) : bool :=
  match subjid with
  | Text s => str_eqb s (patient_id v)
  | _ => false
  end.

(** [left.merge(right, left_on="subjid", right_on="patient_id",
    how="left")] on one row of the left table: one output row for each row
    of the right table with the same key, in their order, and one row with
    nulls when there is none. *)
Definition merge_left_row (agg_df : list AggregatedScores) (r : row)
    : list merged_row :=
  match filter (same_key (r (u "subjid"))) agg_df with
  | [] => [without_scores r]
  | matches => map (with_scores r) matches
  end.

(** The columns of [agg_df]. *)
Definition agg_df_columns : list str :=
  [ u "patient_id"; u "SYNTAX_score"; u "SYNTAX_class"; u "CAD_RADS_grade";
    u "Gensini_score"; u "Gensini_class" ].

(** What a call of [merge_scores] comes to.
    - [KeyErrorRaised]: the table has no column [subjid], and
      [df["subjid"]] raises.
    - [ColumnsClash]: the table has a column with the name of a column of
      [agg_df].  [merge] then gives both columns new names, with the
      suffixes [_x] and [_y], so that no column of the result has the name
      of an appended column; when it is [patient_id], the final
      [drop(columns=["patient_id"])] finds no such column and raises.
    - [Merged rows]: the rows of the left join. *)
Inductive merge_outcome :=
| KeyErrorRaised
| ColumnsClash
| Merged (out : list merged_row).

Definition merge_scores (df : DataFrame)
    (agg : list (str * AggregatedScores)) : merge_outcome :=
  let agg_df := map snd agg in
  if negb (str_mem (u "subjid") (columns df)) then KeyErrorRaised
  else if existsb (fun c => str_mem c (columns df)) agg_df_columns
  then ColumnsClash
  else
    Merged
      (flat_map (fun r => merge_left_row agg_df (subjid_astype_str r))
         (rows df)).

End WithCalculator.
End Dialog.

(** ** 智能转换器.py: IntelligentExcelConverter *)

Module Converter.
Section WithTables.
Context `{UnicodeData}.

Definition field_mapping : list (str * list str) :=
  [ (u "patient_id",
     [ u "patient_id"; u "patientid"; u "id"; u "患者id"; u "患者ID";
       u "病例号"; u "住院号"; u "门诊号"; u "病历号"; u "编号";
       u "case_id"; u "caseid"; u "number"; u "no"; u "序号" ]);
    (u "age",
     [ u "age"; u "年龄"; u "years"; u "yr"; u "years_old"; u "岁" ]);
    (u "gender",
     [ u "gender"; u "sex"; u "性别"; u "男女"; u "male_female";
       u "gender_mf" ]);
    (u "vessel",
     [ u "vessel"; u "artery"; u "血管"; u "病变血管"; u "靶血管";
       u "罪犯血管"; u "主要病变血管"; u "target_vessel";
       u "culprit_vessel"; u "main_vessel"; u "血管名称" ]);
    (u "stenosis_percent",
     [ u "stenosis"; u "stenosis_percent"; u "狭窄"; u "狭窄度";
       u "狭窄百分比"; u "狭窄程度"; u "narrowing"; u "occlusion";
       u "阻塞"; u "堵塞"; u "blockage"; u "狭窄率"; u "%" ]);
    (u "location",
     [ u "location"; u "position"; u "位置"; u "部位"; u "节段"; u "段";
       u "segment"; u "病变位置"; u "狭窄位置"; u "lesion_location" ]);
    (u "diabetes",
     [ u "diabetes"; u "dm"; u "糖尿病"; u "diabetic"; u "血糖";
       u "glucose" ]);
    (u "hypertension",
     [ u "hypertension"; u "htn"; u "bp"; u "高血压"; u "血压";
       u "blood_pressure" ]);
    (u "hyperlipidemia",
     [ u "hyperlipidemia"; u "lipid"; u "高脂血症"; u "血脂"; u "胆固醇";
       u "cholesterol" ]);
    (u "smoking",
     [ u "smoking"; u "smoke"; u "吸烟"; u "烟草"; u "tobacco";
       u "抽烟" ]);
    (u "ejection_fraction",
     [ u "ef"; u "ejection_fraction"; u "lvef"; u "射血分数";
       u "左室射血分数"; u "ejection"; u "fraction"; u "心功能" ]);
    (u "creatinine_mg_dl",
     [ u "creatinine"; u "cr"; u "scr"; u "肌酐"; u "血肌酐";
       u "血清肌酐"; u "creat" ]);
    (u "length_mm",
     [ u "length"; u "lesion_length"; u "长度"; u "病变长度";
       u "狭窄长度"; u "mm"; u "millimeter" ]);
    (u "is_bifurcation",
     [ u "bifurcation"; u "分叉"; u "分岔"; u "branch"; u "分支";
       u "bifur" ]);
    (u "is_calcified",
     [ u "calcified"; u "calcium"; u "calc"; u "钙化"; u "钙质";
       u "ca" ]);
    (u "is_ostial",
     [ u "ostial"; u "ostium"; u "开口"; u "起始"; u "入口";
       u "mouth" ]);
    (u "is_tortuous",
     [ u "tortuous"; u "tortuosity"; u "迂曲"; u "扭曲"; u "弯曲";
       u "curved"; u "winding" ]);
    (u "is_cto",
     [ u "cto"; u "occlusion"; u "完全闭塞"; u "慢性闭塞"; u "闭塞";
       u "total_occlusion"; u "chronic_occlusion"; u "100%" ]);
    (u "thrombus_present",
     [ u "thrombus"; u "clot"; u "血栓"; u "血凝块"; u "thrombosis" ]) ].

Definition len (s : str) : Q := inject_Z (Z.of_nat (List.length s)).

(** [len(possible_clean) / max(len(col_clean), 1) * 80]. *)
Definition containment_score (possible_clean col_clean : str) : Q :=
  len possible_clean
  / (if Qltb (len col_clean) 1 then 1 else len col_clean) * 80.

(** The loop over [possible_names] for one column; an exact match ends it
    ([break]).  The state is [(best_match, best_score)]. *)
Fixpoint match_names (col col_clean : str) (possible_names : list str)
    (best : option str * Q) : option str * Q :=
  match possible_names with
  | [] => best
  | possible_name :: names' =>
      let possible_clean := strip (lower possible_name) in
      if str_eqb col_clean possible_clean then (Some col, 100)
      else if contains possible_clean col_clean
              || contains col_clean possible_clean
      then
        let score := containment_score possible_clean col_clean in
        match_names col col_clean names'
          (if Qltb (snd best) score then (Some col, score) else best)
      else match_names col col_clean names' best
  end.

(** The loop over [available_columns] for one standard field. *)
Definition match_column (column_mapping : list (str * str))
    (possible_names : list str) (best : option str * Q) (col : str)
    : option str * Q :=
  if str_mem col (map snd column_mapping) then best
  else match_names col (strip (lower col)) possible_names best.

Definition field_step (available_columns : list str)
    (column_mapping : list (str * str)) (field : str * list str)
    : list (str * str) :=
  let '(standard_field, possible_names) := field in
  let '(best_match, best_score) :=
    fold_left (match_column column_mapping possible_names)
      available_columns (None, 0) in
  match best_match with
  | Some col =>
      if negb (is_empty col) && Qltb 50 best_score
      then dict_set str_eqb column_mapping standard_field col
      else column_mapping
  | None => column_mapping
  end.

(** [analyze_columns] on the column names of the table. *)
Definition analyze_columns (df_columns : list str) : list (str * str) :=
  let available_columns := map strip df_columns in
  fold_left (field_step available_columns) field_mapping [].

End WithTables.
End Converter.

(** ** models/patient.py: the methods of PatientData *)

Module PatientMethods.
Import Patient.

Definition with_lesions (p : PatientData) (ls : list Lesion) : PatientData :=
  mkPatientData (age p) (gender p) (diabetes p) (hypertension p)
    (creatinine_mg_dl p) (ejection_fraction p) ls.

(** [add_lesion], as the patient after the call. *)
Definition add_lesion (p : PatientData) (lesion : Lesion) : PatientData :=
  with_lesions p (lesions p ++ [lesion]).

(** [get_lesions_by_vessel(vessel)], [vessel] being a member of
    [VesselType]. *)
Definition get_lesions_by_vessel (p : PatientData) (v : VesselType)
    : list Lesion :=
  filter (fun lesion => VesselType_eqb (as_member (vessel lesion)) v)
    (lesions p).

(** [get_significant_lesions(threshold)]; the default threshold is 50. *)
Definition get_significant_lesions (p : PatientData) (threshold : Q)
    : list Lesion :=
  filter (fun lesion => Qgeb (stenosis_percent lesion) threshold) (lesions p).

End PatientMethods.

(** ** utils/vessel_segments.py: the segments *)

Module VesselSegmentTable.
Import Patient.

Record VesselSegment := mkVesselSegment {
  segment_id : Z;
  vessel_type : plain VesselType;
  name : string;
  multiplication_factor : Q
}.

Definition VESSEL_SEGMENTS : list (Z * VesselSegment) :=
  [ (1%Z, mkVesselSegment 1 (Plain RCA) "RCA近段" 1);
    (2%Z, mkVesselSegment 2 (Plain RCA) "RCA中段" 1);
    (3%Z, mkVesselSegment 3 (Plain RCA) "RCA远段" 1);
    (4%Z, mkVesselSegment 4 (Plain PDA) "后降支" 1);
    (16%Z, mkVesselSegment 16 (Plain PLV) "左室后支" (1 # 2));
    (5%Z, mkVesselSegment 5 (Plain LM) "左主干" 5);
    (6%Z, mkVesselSegment 6 (Plain LAD) "LAD近段" (5 # 2));
    (7%Z, mkVesselSegment 7 (Plain LAD) "LAD中段" (3 # 2));
    (8%Z, mkVesselSegment 8 (Plain LAD) "LAD远段" 1);
    (9%Z, mkVesselSegment 9 (Plain D) "第一对角支" 1);
    (10%Z, mkVesselSegment 10 (Plain D) "第二对角支" (1 # 2));
    (11%Z, mkVesselSegment 11 (Plain LCX) "LCX近段" (5 # 2));
    (12%Z, mkVesselSegment 12 (Plain OM) "第一钝缘支" 1);
    (13%Z, mkVesselSegment 13 (Plain LCX) "LCX中段" 1);
    (14%Z, mkVesselSegment 14 (Plain LCX) "LCX远段/左室后侧支" 1);
    (15%Z, mkVesselSegment 15 (Plain OM) "第二钝缘支" (1 # 2)) ].

Definition get_all_segments : list VesselSegment := map snd VESSEL_SEGMENTS.

Definition get_vessel_segments_by_type (v : VesselType)
    : list VesselSegment :=
  filter
    (fun segment => VesselType_eqb (as_member (vessel_type segment)) v)
    (map snd VESSEL_SEGMENTS).

Definition get_segment_by_id (id : Z) : option VesselSegment :=
  dict_get Z.eqb VESSEL_SEGMENTS id.

End VesselSegmentTable.


(** ** calculators/cad_rads_calculator.py: the risk level of the report *)

Module CadRadsReport.
Import Patient.

Inductive RiskLevel := low | intermediate | high.

Definition RiskLevel_eqb (a b : RiskLevel) : bool :=
  match a, b with
  | low, low | intermediate, intermediate | high, high => true
  | _, _ => false
  end.

Definition _assess_risk_level (grade : Z) (p : PatientData)
    : result RiskLevel :=
  let base_risk := low in
  let base_risk :=
    if (grade >=? 4)%Z then high
    else if (grade =? 3)%Z then intermediate
    else if (grade <=? 2)%Z then low
    else base_risk in
  let risk_factors := 0%Z in
  let risk_factors :=
    if diabetes p then (risk_factors + 1)%Z else risk_factors in
  let risk_factors :=
    if hypertension p then (risk_factors + 1)%Z else risk_factors in
  let risk_factors :=
    if (age p >=? 65)%Z then (risk_factors + 1)%Z else risk_factors in
  gender_value <- value (gender p) ;;
  let risk_factors :=
    if str_eqb gender_value (u "male") then (risk_factors + 1)%Z
    else risk_factors in
  if (risk_factors >=? 3)%Z && RiskLevel_eqb base_risk low
  then Ok intermediate
  else if (risk_factors >=? 2)%Z && RiskLevel_eqb base_risk intermediate
  then Ok high
  else Ok base_risk.

End CadRadsReport.

(** ** calculators/gensini_calculator.py: risk and prognosis of the report *)

Module GensiniReport.
Import Patient.

Inductive RiskLevel := low | moderate | high | very_high.

(** [base_risk] of [_assess_cardiovascular_risk]. *)
Definition base_risk (gensini_score : Q) : RiskLevel :=
  if Qgtb gensini_score 80 then very_high
  else if Qgtb gensini_score 40 then high
  else if Qgtb gensini_score 20 then moderate
  else if Qgtb gensini_score 0 then low
  else low.

(** [risk_modifiers] of [_assess_cardiovascular_risk]. *)
Definition risk_modifiers (p : PatientData) : list string :=
  (if (age p >=? 75)%Z then ["高龄"%string] else [])
  ++ (if diabetes p then ["糖尿病"%string] else [])
  ++ (if truthy_Q (ejection_fraction p) &&
         match ejection_fraction p with
         | Some x => Qltb x 50
         | None => false
         end
      then ["心功能不全"%string] else [])
  ++ (if truthy_Q (creatinine_mg_dl p) &&
         match creatinine_mg_dl p with
         | Some x => Qgtb x 2
         | None => false
         end
      then ["肾功能不全"%string] else []).

Inductive AnnualRisk := below_5 | from_5_to_10 | from_10_to_20 | above_20.

(** [_estimate_annual_event_risk]; the four texts it returns are named by
    their bands. *)
Definition _estimate_annual_event_risk (gensini_score : Q)
    (modifier_count : Z) : AnnualRisk :=
  let base_risk :=
    if Qleb gensini_score 20 then 2%Z
    else if Qleb gensini_score 40 then 5%Z
    else if Qleb gensini_score 80 then 10%Z
    else 20%Z in
  let adjusted_risk := (base_risk + modifier_count * 2)%Z in
  if (adjusted_risk <? 5)%Z then below_5
  else if (adjusted_risk <? 10)%Z then from_5_to_10
  else if (adjusted_risk <? 20)%Z then from_10_to_20
  else above_20.

Record RiskAssessment := mkRiskAssessment {
  risk_level : RiskLevel;
  assessed_modifiers : list string;
  annual_event_risk : AnnualRisk
}.

Definition _assess_cardiovascular_risk (gensini_score : Q) (p : PatientData)
    : RiskAssessment :=
  mkRiskAssessment (base_risk gensini_score) (risk_modifiers p)
    (_estimate_annual_event_risk gensini_score
       (Z.of_nat (List.length (risk_modifiers p)))).

(** [_estimate_survival]: the percentage that the returned text holds. *)
Definition _estimate_survival (gensini_score : Q) (adverse_factors : Z) : Z :=
  let base_survival := 95%Z in
  let base_survival :=
    if Qgtb gensini_score 80 then (base_survival - 15)%Z
    else if Qgtb gensini_score 40 then (base_survival - 10)%Z
    else if Qgtb gensini_score 20 then (base_survival - 5)%Z
    else base_survival in
  let adjusted_survival := (base_survival - adverse_factors * 5)%Z in
  Z.max adjusted_survival 50.

(** [prognostic_factors] of [_assess_prognosis]. *)
Definition prognostic_factors (p : PatientData) : list string :=
  (if (age p >=? 80)%Z then ["高龄影响预后"%string] else [])
  ++ (if diabetes p then ["糖尿病影响预后"%string] else [])
  ++ (if truthy_Q (ejection_fraction p) &&
         match ejection_fraction p with
         | Some x => Qltb x 40
         | None => false
         end
      then ["心功能不全显著影响预后"%string] else []).

Record Prognosis := mkPrognosis {
  overall_prognosis : string;
  assessed_factors : list string;
  five_year_survival : Z
}.

Definition _assess_prognosis (gensini_score : Q) (p : PatientData)
    : Prognosis :=
  let base_prognosis :=
    (if Qleb gensini_score 20 then "良好"
     else if Qleb gensini_score 40 then "相对良好"
     else if Qleb gensini_score 80 then "需要关注"
     else "较差，需要积极干预")%string in
  mkPrognosis base_prognosis (prognostic_factors p)
    (_estimate_survival gensini_score
       (Z.of_nat (List.length (prognostic_factors p)))).

End GensiniReport.

(** ** utils/validation.py *)

Module Validation.
Import Patient.

(** The messages of [validate_lesion_data], in the order of the checks. *)
Inductive lesion_error :=
| stenosis_out_of_range
| length_out_of_range
| cto_below_99
| thrombus_below_70.

Definition validate_lesion_data (lesion : Lesion) : list lesion_error :=
  (if Qltb (stenosis_percent lesion) 0 || Qgtb (stenosis_percent lesion) 100
   then [stenosis_out_of_range] else [])
  ++ (match length_mm lesion with
      | Some len =>
          if Qltb len 0 || Qgtb len 200 then [length_out_of_range] else []
      | None => []
      end)
  ++ (if is_cto lesion && Qltb (stenosis_percent lesion) 99
      then [cto_below_99] else [])
  ++ (if thrombus_present lesion && Qltb (stenosis_percent lesion) 70
      then [thrombus_below_70] else []).

(** The messages of [validate_patient_data]; a message of a lesion carries
    the number of the lesion, from 1. *)
Inductive patient_error :=
| age_out_of_range
| creatinine_out_of_range
| ejection_fraction_out_of_range
| no_lesion
| in_lesion (number : nat) (e : lesion_error).

Fixpoint lesion_errors_from (i : nat) (ls : list Lesion)
    : list patient_error :=
  match ls with
  | [] => []
  | lesion :: ls' =>
      map (in_lesion (i + 1)) (validate_lesion_data lesion)
      ++ lesion_errors_from (S i) ls'
  end.

Definition patient_errors (p : PatientData) : list patient_error :=
  (if (age p <? 0)%Z || (age p >? 150)%Z then [age_out_of_range] else [])
  ++ (match creatinine_mg_dl p with
      | Some x =>
          if Qltb x 0 || Qgtb x 20 then [creatinine_out_of_range] else []
      | None => []
      end)
  ++ (match ejection_fraction p with
      | Some x =>
          if Qltb x 10 || Qgtb x 100
          then [ejection_fraction_out_of_range] else []
      | None => []
      end)
  ++ (match lesions p with
      | [] => [no_lesion]
      | _ :: _ => lesion_errors_from 0 (lesions p)
      end).

Definition validate_patient_data (p : PatientData)
    : bool * list patient_error :=
  (match patient_errors p with [] => true | _ :: _ => false end,
   patient_errors p).

End Validation.

(** ** 智能转换器.py: normalisation of the values *)

(** [str.upper]. *)
Class UnicodeUpper := {
  upper : str -> str
}.

Definition ascii_upper_char (c : N) : N :=
  if ((97 <=? c) && (c <=? 122))%N then (c - 32)%N else c.

#[export] Instance ascii_upper : UnicodeUpper := {
  upper := map ascii_upper_char
}.

Module ConverterValues.
Section WithTables.
Context `{UnicodeData} `{UnicodeUpper}.

Definition vessel_standardization : list (str * list str) :=
  [ (u "LM", [u "LM"; u "LMCA"; u "左主干"; u "左主"; u "主干";
              u "LEFT_MAIN"; u "left_main"]);
    (u "LAD", [u "LAD"; u "LADCA"; u "左前降"; u "前降支"; u "左前降支";
               u "LEFT_ANTERIOR_DESCENDING"]);
    (u "LCX", [u "LCX"; u "LCXCA"; u "左回旋"; u "回旋支"; u "左回旋支";
               u "LEFT_CIRCUMFLEX"]);
    (u "RCA", [u "RCA"; u "RCCA"; u "右冠"; u "右冠脉"; u "右冠状动脉";
               u "RIGHT_CORONARY"]);
    (u "OM", [u "OM"; u "OM1"; u "OM2"; u "钝缘"; u "钝缘支";
              u "OBTUSE_MARGINAL"]);
    (u "D", [u "D"; u "D1"; u "D2"; u "对角"; u "对角支"; u "DIAGONAL"]);
    (u "PDA", [u "PDA"; u "后降"; u "后降支"; u "POSTERIOR_DESCENDING"]);
    (u "PLV", [u "PLV"; u "左室后"; u "左室后支";
               u "POSTERIOR_LEFT_VENTRICULAR"]) ].

Definition location_standardization : list (str * list str) :=
  [ (u "proximal", [u "近段"; u "近端"; u "起始段"; u "开口段";
                    u "proximal"; u "prox"; u "1段"]);
    (u "mid", [u "中段"; u "中间段"; u "中部"; u "mid"; u "middle";
               u "2段"]);
    (u "distal", [u "远段"; u "远端"; u "末段"; u "终末段"; u "distal";
                  u "dist"; u "3段"]) ].

Definition gender_standardization : list (str * list str) :=
  [ (u "male", [u "男"; u "男性"; u "male"; u "M"; u "m"; u "1"]);
    (u "female", [u "女"; u "女性"; u "female"; u "F"; u "f"; u "0"]) ].

(** The two nested loops of the three functions: the first standard name
    one of whose variants passes the test. *)
Fixpoint first_standard (test : str -> bool) (table : list (str * list str))
    : option str :=
  match table with
  | [] => None
  | (standard, variants) :: table' =>
      if existsb test variants then Some standard
      else first_standard test table'
  end.

Definition standardize_vessel_name (vessel_value : cell) : str :=
  if isna vessel_value then u "LAD"
  else
    let vessel_str := upper (strip (py_str vessel_value)) in
    match first_standard
            (fun variant => contains (upper variant) vessel_str
                            || contains vessel_str (upper variant))
            vessel_standardization with
    | Some standard_name => standard_name
    | None =>
        if contains (u "左主") vessel_str || contains (u "LM") vessel_str
        then u "LM"
        else if contains (u "前降") vessel_str
                || contains (u "LAD") vessel_str
        then u "LAD"
        else if contains (u "回旋") vessel_str
                || contains (u "LCX") vessel_str
        then u "LCX"
        else if contains (u "右冠") vessel_str
                || contains (u "RCA") vessel_str
        then u "RCA"
        else u "LAD"
    end.

Definition standardize_location (location_value : cell) : str :=
  if isna location_value then u "proximal"
  else
    let location_str := strip (py_str location_value) in
    match first_standard
            (fun variant => contains variant location_str
                            || contains location_str variant)
            location_standardization with
    | Some standard_loc => standard_loc
    | None => u "proximal"
    end.

Definition standardize_gender (gender_value : cell) : str :=
  if isna gender_value then u "male"
  else
    let gender_str := strip (py_str gender_value) in
    match first_standard
            (fun variant => contains variant gender_str
                            || contains gender_str variant)
            gender_standardization with
    | Some standard_gender => standard_gender
    | None => u "male"
    end.

Definition extract_stenosis_percent (stenosis_value : cell) : Q :=
  if isna stenosis_value then 0
  else
    let stenosis_str := strip (py_str stenosis_value) in
    match Dialog.findall_numbers stenosis_str with
    | first_number :: _ =>
        let value := Dialog.float_of first_number in
        if Qgtb value 1 then (if Qltb 100 value then 100 else value)
        else value * 100
    | [] =>
        if contains (u "完全") stenosis_str
           || contains (u "100") stenosis_str
           || contains (u "CTO") (upper stenosis_str)
        then 100
        else if contains (u "重度") stenosis_str
                || contains (u "严重") stenosis_str
        then 90
        else if contains (u "中度") stenosis_str then 70
        else if contains (u "轻度") stenosis_str then 50
        else 0
    end.

Definition safe_convert_boolean (value : cell) : bool :=
  if isna value then false
  else
    str_mem (upper (strip (py_str value)))
      [u "TRUE"; u "是"; u "YES"; u "1"; u "Y"; u "有"; u "阳性"; u "+"].

End WithTables.
End ConverterValues.

(** ** Sums and sample records used in the statements *)

Fixpoint Qsum (xs : list Q) : Q :=
  match xs with
  | [] => 0
  | x :: xs' => x + Qsum xs'
  end.

(** The float sum of [xs] onto [start], taken from left to right as a loop
    [total += x] takes it. *)
Definition fsum_from (start : Q) (xs : list Q) : Q := fold_left fadd xs start.

(** A lesion of the package with no segment id, no length and no feature,
    as [Lesion(vessel=..., stenosis_percent=..., location=...)] builds
    it. *)
Definition plain_lesion (v : Patient.VesselType) (s : Q)
    (loc : Patient.StenosisLocation) : Patient.Lesion :=
  Patient.mkLesion (Patient.Plain v) None s (Patient.Plain loc) None
    false false false false false false.

(** The same lesion with [segment_id=id]. *)
Definition segment_lesion (id : Z) (v : Patient.VesselType) (s : Q)
    (loc : Patient.StenosisLocation) : Patient.Lesion :=
  Patient.mkLesion (Patient.Plain v) (Some id) s (Patient.Plain loc) None
    false false false false false false.

(** A male patient of the package, 65 years old, with no clinical
    factor. *)
Definition plain_patient (ls : list Patient.Lesion) : Patient.PatientData :=
  Patient.mkPatientData 65 (Patient.Plain Patient.MALE) false false None None
    ls.

(** A lesion dictionary with the keys [vessel], [location] and
    [stenosis_percent] only. *)
Definition plain_dict (v : str) (loc : str) (s : Q)
    : CoronaryScoreCalculator.lesion :=
  CoronaryScoreCalculator.mkLesion s v (Some loc)
    false false false false false false None.

(** The lesions that the SYNTAX loops keep: [stenosis_percent >= 50]. *)
Definition qualifies (l : Patient.Lesion) : bool :=
  Qgeb (Patient.stenosis_percent l) 50.

(** The vessels whose entry in [vessel_mapping] is a dictionary over the
    locations. *)
Definition located_vessel (v : Patient.VesselType) : bool :=
  match v with
  | Patient.LAD | Patient.LCX | Patient.RCA => true
  | _ => false
  end.

(** The lesions for which [_get_segment_id] reads [lesion.location.value]:
    no segment id (or the id 0) and one of those vessels. *)
Definition reads_location (l : Patient.Lesion) : bool :=
  negb (truthy_Z (Patient.segment_id l))
  && located_vessel (Patient.as_member (Patient.vessel l)).

(** What a lesion adds to the total in [_calculate_anatomical_score]:
    [lesion_score]. *)
Definition lesion_score (l : Patient.Lesion) : result Q :=
  base_score <- SyntaxCalculator._get_base_score l ;;
  Ok (base_score + SyntaxCalculator._get_complexity_score l).

(** The lesions on which the loop of [_calculate_anatomical_score] raises,
    and the value that a lesion adds when it does not. *)
Definition raises_on (l : Patient.Lesion) : bool :=
  qualifies l && reads_location l.

Definition score_or_zero (l : Patient.Lesion) : Q :=
  match lesion_score l with
  | Ok s => s
  | Raise _ => 0
  end.

Definition dict_qualifies (l : CoronaryScoreCalculator.lesion) : bool :=
  Qgeb (CoronaryScoreCalculator.stenosis_percent l) 50.

(** [lesion_score] in the loop of [calculate_syntax_score]. *)
Definition dict_lesion_score (l : CoronaryScoreCalculator.lesion) : Q :=
  fadd
    (fmul (CoronaryScoreCalculator.syntax_base_weight l)
       (CoronaryScoreCalculator.syntax_stenosis_factor
          (CoronaryScoreCalculator.stenosis_percent l)))
    (CoronaryScoreCalculator.syntax_complexity l).

(** The weight tables as the statements on the weights word them.

    The factor of a location name: [mid] and [distal] have their own, every
    other name has 1. *)
Definition location_multiplier (mid distal : Q) (loc : str) : Q :=
  if str_eqb loc (u "mid") then mid
  else if str_eqb loc (u "distal") then distal
  else 1.

(** SYNTAX, dictionary calculator: LM 5.0, LAD, LCX and RCA 3.5, PLV 0.5,
    every other vessel name 1.0. *)
Definition sheet_syntax_weight (v : str) : Q :=
  if str_eqb v (u "LM") then 5
  else if str_eqb v (u "LAD") || str_eqb v (u "LCX") || str_eqb v (u "RCA")
  then 7 # 2
  else if str_eqb v (u "PLV") then 1 # 2
  else 1.

(** Gensini, dictionary calculator: LM 5.0, LAD and LCX 2.5, PLV 0.5, every
    other vessel name 1.0. *)
Definition sheet_gensini_weight (v : str) : Q :=
  if str_eqb v (u "LM") then 5
  else if str_eqb v (u "LAD") || str_eqb v (u "LCX") then 5 # 2
  else if str_eqb v (u "PLV") then 1 # 2
  else 1.

(** Gensini: the base weight of a vessel, LM 5.0, LAD and LCX 2.5, RCA, OM,
    D and PDA 1.0, PLV 0.5. *)
Definition gensini_base_weight (v : Patient.VesselType) : Q :=
  match v with
  | Patient.LM => 5
  | Patient.LAD | Patient.LCX => 5 # 2
  | Patient.PLV => 1 # 2
  | _ => 1
  end.

(** The risk level that goes with a Gensini severity grade. *)
Definition risk_of_severity (g : GensiniCalculator.SeverityGrade)
    : GensiniReport.RiskLevel :=
  match g with
  | GensiniCalculator.normal | GensiniCalculator.mild => GensiniReport.low
  | GensiniCalculator.moderate => GensiniReport.moderate
  | GensiniCalculator.severe => GensiniReport.high
  | GensiniCalculator.critical => GensiniReport.very_high
  end.

(** The segment ids of [GENSINI_WEIGHTS]. *)
Definition table_segment (id : option Z) : bool :=
  match id with
  | Some z => (1 <=? z)%Z && (z <=? 16)%Z
  | None => false
  end.

(** pandas before version 3: [astype(str)] writes "nan" for a missing
    value. *)
#[export] Instance pandas_before_3 : Dialog.Pandas := {
  Dialog.astype_str_missing := Text (u "nan")
}.

(** * Properties *)

(** ** Comparisons *)

Lemma Qleb_true (x y : Q) : Qleb x y = true <-> x <= y.
Proof. apply Qle_bool_iff. Qed.

Lemma Qleb_false (x y : Q) : Qleb x y = false <-> y < x.
Proof.
  unfold Qleb. split; intro Hf.
  - destruct (Qlt_le_dec y x) as [Hlt | Hle]; [exact Hlt |].
    apply Qle_bool_iff in Hle. congruence.
  - destruct (Qle_bool x y) eqn:E; [| reflexivity].
    apply Qle_bool_iff in E. lra.
Qed.

Lemma Qltb_true (x y : Q) : Qltb x y = true <-> x < y.
Proof.
  unfold Qltb. rewrite negb_true_iff. apply (Qleb_false y x).
Qed.

Lemma Qltb_false (x y : Q) : Qltb x y = false <-> y <= x.
Proof.
  unfold Qltb. rewrite negb_false_iff. apply (Qleb_true y x).
Qed.

Lemma Qgeb_true (x y : Q) : Qgeb x y = true <-> y <= x.
Proof. apply (Qleb_true y x). Qed.

Lemma Qgeb_false (x y : Q) : Qgeb x y = false <-> x < y.
Proof. apply (Qleb_false y x). Qed.

Lemma Qgtb_true (x y : Q) : Qgtb x y = true <-> y < x.
Proof. apply (Qltb_true y x). Qed.

Lemma Qgtb_false (x y : Q) : Qgtb x y = false <-> x <= y.
Proof. apply (Qltb_false y x). Qed.

Lemma Qeqb_true (x y : Q) : Qeqb x y = true <-> x == y.
Proof. apply Qeq_bool_iff. Qed.

Lemma Qeqb_false (x y : Q) : Qeqb x y = false <-> ~ x == y.
Proof.
  unfold Qeqb. split.
  - intros Hf Heq. apply Qeq_bool_iff in Heq. congruence.
  - intro Hne. destruct (Qeq_bool x y) eqn:E; [| reflexivity].
    apply Qeq_bool_iff in E. contradiction.
Qed.

(** Turn the boolean comparisons among the hypotheses into propositions. *)
Ltac qprop :=
  repeat match goal with
  | Hb : Qleb _ _ = true |- _ => apply Qleb_true in Hb
  | Hb : Qleb _ _ = false |- _ => apply Qleb_false in Hb
  | Hb : Qltb _ _ = true |- _ => apply Qltb_true in Hb
  | Hb : Qltb _ _ = false |- _ => apply Qltb_false in Hb
  | Hb : Qgeb _ _ = true |- _ => apply Qgeb_true in Hb
  | Hb : Qgeb _ _ = false |- _ => apply Qgeb_false in Hb
  | Hb : Qgtb _ _ = true |- _ => apply Qgtb_true in Hb
  | Hb : Qgtb _ _ = false |- _ => apply Qgtb_false in Hb
  | Hb : Qeqb _ _ = true |- _ => apply Qeqb_true in Hb
  | Hb : Qeqb _ _ = false |- _ => apply Qeqb_false in Hb
  end.

(** Split on every comparison of the goal. *)
Ltac qcases :=
  repeat match goal with
  | |- context [Qleb ?a ?b] => destruct (Qleb a b) eqn:?
  | |- context [Qltb ?a ?b] => destruct (Qltb a b) eqn:?
  | |- context [Qgeb ?a ?b] => destruct (Qgeb a b) eqn:?
  | |- context [Qgtb ?a ?b] => destruct (Qgtb a b) eqn:?
  | |- context [Qeqb ?a ?b] => destruct (Qeqb a b) eqn:?
  end; qprop.

(** Settle every comparison of the goal that the hypotheses decide. *)
Ltac qdecide :=
  repeat match goal with
  | |- context [Qleb ?a ?b] =>
      first [ rewrite (proj2 (Qleb_true a b)) by lra
            | rewrite (proj2 (Qleb_false a b)) by lra ]
  | |- context [Qltb ?a ?b] =>
      first [ rewrite (proj2 (Qltb_true a b)) by lra
            | rewrite (proj2 (Qltb_false a b)) by lra ]
  | |- context [Qgeb ?a ?b] =>
      first [ rewrite (proj2 (Qgeb_true a b)) by lra
            | rewrite (proj2 (Qgeb_false a b)) by lra ]
  | |- context [Qgtb ?a ?b] =>
      first [ rewrite (proj2 (Qgtb_true a b)) by lra
            | rewrite (proj2 (Qgtb_false a b)) by lra ]
  end.

Ltac zdecide :=
  repeat match goal with
  | |- context [(?a <=? ?b)%Z] =>
      first [ rewrite (proj2 (Z.leb_le a b)) by lia
            | rewrite (proj2 (Z.leb_gt a b)) by lia ]
  | |- context [(?a <? ?b)%Z] =>
      first [ rewrite (proj2 (Z.ltb_lt a b)) by lia
            | rewrite (proj2 (Z.ltb_ge a b)) by lia ]
  | |- context [(?a =? ?b)%Z] =>
      first [ rewrite (proj2 (Z.eqb_eq a b)) by lia
            | rewrite (proj2 (Z.eqb_neq a b)) by lia ]
  end.

(** ** CAD-RADS grade of a stenosis *)

Section CadRadsGrade.
Import CadRadsCalculator.

Lemma stenosis_to_grade_unfold (s : Q) :
  _stenosis_to_grade s =
    if Qleb 0 s && Qleb s 0 then 0%Z
    else if Qleb 1 s && Qleb s 24 then 1%Z
    else if Qleb 25 s && Qleb s 49 then 2%Z
    else if Qleb 50 s && Qleb s 69 then 3%Z
    else if Qleb 70 s && Qleb s 99 then 4%Z
    else if Qleb 100 s && Qleb s 100 then 5%Z
    else 0%Z.
Proof. reflexivity. Qed.

(** On a whole number of percent the package calculator gives the bands
    0, 1-24, 25-49, 50-69, 70-99, 100. *)
Lemma stenosis_to_grade_whole (n : Z) :
  (0 <= n <= 100)%Z ->
  _stenosis_to_grade (inject_Z n) =
    if (n =? 0)%Z then 0%Z
    else if (n <? 25)%Z then 1%Z
    else if (n <? 50)%Z then 2%Z
    else if (n <? 70)%Z then 3%Z
    else if (n <? 100)%Z then 4%Z
    else 5%Z.
Proof.
  intros Hn. rewrite stenosis_to_grade_unfold.
  assert (Hle : forall a b : Z, Qleb (inject_Z a) (inject_Z b) = (a <=? b)%Z).
  { intros a b. unfold Qleb.
    destruct (a <=? b)%Z eqn:E.
    - apply Qle_bool_iff. rewrite <- Zle_Qle. lia.
    - destruct (Qle_bool (inject_Z a) (inject_Z b)) eqn:E'; [| reflexivity].
      apply Qle_bool_iff in E'. rewrite <- Zle_Qle in E'. lia. }
  change 0 with (inject_Z 0). change 1 with (inject_Z 1).
  change 24 with (inject_Z 24). change 25 with (inject_Z 25).
  change 49 with (inject_Z 49). change 50 with (inject_Z 50).
  change 69 with (inject_Z 69). change 70 with (inject_Z 70).
  change 99 with (inject_Z 99). change 100 with (inject_Z 100).
  rewrite !Hle.
  assert (Hband : (n = 0 \/ 1 <= n <= 24 \/ 25 <= n <= 49 \/ 50 <= n <= 69
                   \/ 70 <= n <= 99 \/ n = 100)%Z) by lia.
  destruct Hband as [Hb | [Hb | [Hb | [Hb | [Hb | Hb]]]]];
    zdecide; reflexivity.
Qed.

(** C1.  The package calculator tests the closed ranges 0-0, 1-24, 25-49,
    50-69, 70-99 and 100-100 and answers 0 when none holds the stenosis:
    24 percent has grade 1, 24.5 percent has grade 0 where the claimed step
    function gives 1, so the grade is not monotonic (and 0.5, 49.5, 69.5
    and 99.5 percent have grade 0 as well).  The calculator of
    [single_sheet_processor.py] gives 24.5 percent the grade 2. *)
Theorem C1_grade_of_fractional_stenosis :
  _stenosis_to_grade 24 = 1%Z /\
  _stenosis_to_grade (49 # 2) = 0%Z /\
  _stenosis_to_grade (1 # 2) = 0%Z /\
  _stenosis_to_grade (99 # 2) = 0%Z /\
  _stenosis_to_grade (139 # 2) = 0%Z /\
  _stenosis_to_grade (199 # 2) = 0%Z /\
  CoronaryScoreCalculator.cad_rads_grade_of (49 # 2) = 2%Z.
Proof. repeat split; reflexivity. Qed.

End CadRadsGrade.


(** ** Gensini score of a stenosis *)

Section GensiniStenosisScore.
Import GensiniCalculator.

Lemma get_stenosis_score_unfold (s : Q) :
  _get_stenosis_score s =
    if Qltb 0 s && Qleb s 25 then 1%Z
    else if Qltb 25 s && Qleb s 50 then 2%Z
    else if Qltb 50 s && Qleb s 75 then 4%Z
    else if Qltb 75 s && Qleb s 90 then 8%Z
    else if Qltb 90 s && Qleb s 99 then 16%Z
    else if Qltb 99 s && Qleb s 100 then 32%Z
    else 0%Z.
Proof. reflexivity. Qed.

(** The two calculators hold the same table and scan it alike. *)
Lemma gensini_stenosis_score_same (s : Q) :
  CoronaryScoreCalculator.gensini_stenosis_score s = _get_stenosis_score s.
Proof. reflexivity. Qed.

(** C2.  For a stenosis [s] between 0 and 100 the Gensini stenosis score of
    both calculators follows the table applied as [min < s <= max]:
    (0,25] gives 1, (25,50] gives 2, (50,75] gives 4, (75,90] gives 8,
    (90,99] gives 16, (99,100] gives 32, and [s = 0] lies in no interval and
    scores 0.  In particular 25 scores 1, 25.01 scores 2, 100 scores 32 and
    0 scores 0. *)
Theorem C2_gensini_stenosis_score (s : Q) :
  0 <= s -> s <= 100 ->
  CoronaryScoreCalculator.gensini_stenosis_score s = _get_stenosis_score s /\
  (s == 0 -> _get_stenosis_score s = 0%Z) /\
  (0 < s -> s <= 25 -> _get_stenosis_score s = 1%Z) /\
  (25 < s -> s <= 50 -> _get_stenosis_score s = 2%Z) /\
  (50 < s -> s <= 75 -> _get_stenosis_score s = 4%Z) /\
  (75 < s -> s <= 90 -> _get_stenosis_score s = 8%Z) /\
  (90 < s -> s <= 99 -> _get_stenosis_score s = 16%Z) /\
  (99 < s -> s <= 100 -> _get_stenosis_score s = 32%Z) /\
  _get_stenosis_score 25 = 1%Z /\
  _get_stenosis_score (2501 # 100) = 2%Z /\
  _get_stenosis_score 100 = 32%Z /\
  _get_stenosis_score 0 = 0%Z.
Proof.
  intros H0 H100.
  split; [reflexivity |].
  rewrite get_stenosis_score_unfold.
  repeat split; try reflexivity; intros; qdecide; reflexivity.
Qed.

Lemma C2_gensini_stenosis_score_witness :
  0 <= 60 /\ 60 <= 100 /\ _get_stenosis_score 60 = 4%Z.
Proof.
  assert (H0 : 0 <= 60) by (unfold Qle; cbn; lia).
  assert (H100 : 60 <= 100) by (unfold Qle; cbn; lia).
  split; [exact H0 | split; [exact H100 |]].
  destruct (C2_gensini_stenosis_score 60 H0 H100)
    as (_ & _ & _ & _ & H4 & _).
  apply H4; unfold Qlt, Qle; cbn; lia.
Defined.

End GensiniStenosisScore.

(** ** A patient with no lesion *)

(** C10.  For a patient whose lesion list is empty, the SYNTAX calculator
    returns total score 0 with risk category low, the Gensini calculator
    returns total score 0 with severity grade normal, and the CAD-RADS
    calculator returns overall grade 0, maximal stenosis 0 and no dominant
    vessel. *)
Theorem C10_no_lesions (p : Patient.PatientData) :
  Patient.lesions p = [] ->
  (exists r, SyntaxCalculator.calculate p = Ok r /\
     SyntaxCalculator.total_score r = 0 /\
     SyntaxCalculator.risk_category r = SyntaxCalculator.low) /\
  (exists r, GensiniCalculator.calculate p = Ok r /\
     GensiniCalculator.total_score r = 0 /\
     GensiniCalculator.severity_grade r = GensiniCalculator.normal) /\
  (exists r, CadRadsCalculator.calculate p = Ok r /\
     CadRadsCalculator.overall_grade r = 0%Z /\
     CadRadsCalculator.max_stenosis r = 0 /\
     CadRadsCalculator.dominant_vessel r = None).
Proof.
  intros Hnil.
  unfold SyntaxCalculator.calculate, GensiniCalculator.calculate,
    CadRadsCalculator.calculate.
  rewrite Hnil.
  repeat split; eexists; (split; [reflexivity |]); repeat split.
Qed.

Lemma C10_no_lesions_witness :
  (exists r, SyntaxCalculator.calculate (plain_patient []) = Ok r /\
     SyntaxCalculator.total_score r = 0) /\
  (exists r, GensiniCalculator.calculate (plain_patient []) = Ok r /\
     GensiniCalculator.severity_grade r = GensiniCalculator.normal) /\
  (exists r, CadRadsCalculator.calculate (plain_patient []) = Ok r /\
     CadRadsCalculator.dominant_vessel r = None).
Proof.
  destruct (C10_no_lesions (plain_patient []) eq_refl)
    as ((rs & Hrs & Hs & _) & (rg & Hrg & _ & Hg) & (rc & Hrc & _ & _ & Hc)).
  split; [exists rs; split; assumption |].
  split; [exists rg; split; assumption | exists rc; split; assumption].
Defined.

(** ** Rounding *)

Lemma Qltb_comp (a b c d : Q) : a == c -> b == d -> Qltb a b = Qltb c d.
Proof.
  intros Hac Hbd. unfold Qltb. f_equal. apply Qleb_comp; assumption.
Qed.

Lemma half_even_comp (y y' : Q) : y == y' -> half_even y = half_even y'.
Proof.
  intro Heq. unfold half_even.
  rewrite (Qfloor_comp y y' Heq).
  rewrite (Qltb_comp (y - inject_Z (Qfloor y')) (1 # 2)
             (y' - inject_Z (Qfloor y')) (1 # 2));
    [| rewrite Heq; reflexivity | reflexivity].
  rewrite (Qltb_comp (1 # 2) (y - inject_Z (Qfloor y'))
             (1 # 2) (y' - inject_Z (Qfloor y')));
    [reflexivity | reflexivity | rewrite Heq; reflexivity].
Qed.

(** Equal numbers have the same nearest float. *)
Lemma round53_comp (x y : Q) : x == y -> round53 x = round53 y.
Proof.
  intro Heq. unfold round53. rewrite (Qred_complete x y Heq). reflexivity.
Qed.

(** Equal numbers round to the same number. *)
Lemma py_round_comp (x y : Q) (n : nat) :
  x == y -> py_round x n = py_round y n.
Proof.
  intro Heq. unfold py_round. apply round53_comp.
  rewrite (half_even_comp (x * inject_Z (10 ^ Z.of_nat n))
             (y * inject_Z (10 ^ Z.of_nat n))); [reflexivity |].
  rewrite Heq. reflexivity.
Qed.

(** ** SYNTAX, package calculator: where it raises and what it adds *)

Section SyntaxScore.
Import Patient SyntaxCalculator.

(** [_get_segment_id] raises exactly on the lesions for which it reads the
    location. *)
Lemma get_segment_id_cases (l : Lesion) :
  (reads_location l = true /\ _get_segment_id l = Raise AttributeError) \/
  (reads_location l = false /\ exists id, _get_segment_id l = Ok id).
Proof.
  unfold reads_location, _get_segment_id.
  destruct (truthy_Z (segment_id l)); cbn [negb andb].
  - right. split; [reflexivity | eexists; reflexivity].
  - destruct (vessel l) as [v].
    destruct v; cbn [as_member located_vessel vessel_mapping];
      first [ left; split; reflexivity
            | right; split; [reflexivity | eexists; reflexivity] ].
Qed.

Lemma weight_table_bounds (id : Z) :
  1 # 2 <= dict_get_default Z.eqb VESSEL_WEIGHTS id 1 /\
  dict_get_default Z.eqb VESSEL_WEIGHTS id 1 <= 5.
Proof.
  cbv [dict_get_default dict_get VESSEL_WEIGHTS].
  repeat match goal with
  | |- context [(id =? ?k)%Z] =>
      destruct (id =? k)%Z; [split; unfold Qle; cbn; lia |]
  end.
  split; unfold Qle; cbn; lia.
Qed.

Lemma stenosis_factor_bounds (l : Lesion) :
  1 <= stenosis_factor l /\ stenosis_factor l <= 5.
Proof.
  unfold stenosis_factor.
  destruct (Qgeb (stenosis_percent l) 99); [split; unfold Qle; cbn; lia |].
  destruct (Qgeb (stenosis_percent l) 90); [split; unfold Qle; cbn; lia |].
  destruct (Qgeb (stenosis_percent l) 70); split; unfold Qle; cbn; lia.
Qed.

Lemma complexity_score_bounds (l : Lesion) :
  0 <= _get_complexity_score l /\ _get_complexity_score l <= 23 # 2.
Proof.
  unfold _get_complexity_score, add_if, COMPLEXITY_SCORES.
  destruct (is_bifurcation l), (is_ostial l), (is_calcified l),
    (thrombus_present l), (is_cto l), (is_tortuous l),
    (truthy_Q (length_mm l) &&
     match length_mm l with Some len => Qgtb len 20 | None => false end);
    split; unfold Qle; cbn; lia.
Qed.

Lemma lesion_score_cases (l : Lesion) :
  (reads_location l = true /\ lesion_score l = Raise AttributeError) \/
  (reads_location l = false /\
   exists s, lesion_score l = Ok s /\ 1 # 2 <= s /\ s <= 73 # 2).
Proof.
  unfold lesion_score, _get_base_score, segment_weight.
  destruct (get_segment_id_cases l) as [[Hr ->] | [Hr [id ->]]].
  - left. split; [exact Hr | reflexivity].
  - right. split; [exact Hr |]. cbn [bind]. eexists. split; [reflexivity |].
    destruct (weight_table_bounds id) as [Hw1 Hw2].
    destruct (stenosis_factor_bounds l) as [Hf1 Hf2].
    destruct (complexity_score_bounds l) as [Hc1 Hc2].
    set (w := dict_get_default Z.eqb VESSEL_WEIGHTS id 1) in *.
    split.
    + assert (1 # 2 <= w * stenosis_factor l) by nra. lra.
    + assert (w * stenosis_factor l <= 25) by nra. lra.
Qed.

(** X1.  What a lesion adds to the SYNTAX total.  The score of a lesion is
    computed, and then lies between 0.5 and 36.5, unless the lesion has no
    segment id and lies in LAD, LCX or RCA: for such a lesion the
    calculator reads [location.value] and raises [AttributeError]. *)
Theorem syntax_lesion_score_bounds (l : Lesion) :
  (lesion_score l = Raise AttributeError <-> reads_location l = true) /\
  ((exists s, lesion_score l = Ok s) <-> reads_location l = false) /\
  (forall s, lesion_score l = Ok s -> 1 # 2 <= s /\ s <= 73 # 2).
Proof.
  destruct (lesion_score_cases l) as [[Hr He] | [Hr [s [He Hb]]]];
    rewrite He, Hr.
  - split; [tauto |]. split.
    + split; [intros [s Hs]; discriminate | discriminate].
    + intros s Hs. discriminate.
  - split; [split; discriminate |]. split.
    + split; [reflexivity | intros _; exists s; reflexivity].
    + intros s' Hs. injection Hs as <-. exact Hb.
Qed.

Lemma qualifies_not_below (l : Lesion) :
  Qltb (stenosis_percent l) 50 = negb (qualifies l).
Proof. reflexivity. Qed.

(** The loop of [_calculate_anatomical_score]: it raises when it meets a
    lesion from 50 percent on whose location it reads, and otherwise adds
    the scores of the lesions from 50 percent on, in their order. *)
Lemma anatomical_fold (ls : list Lesion) (a : Q) :
  for_each anatomical_step ls a
  = if existsb raises_on ls then Raise AttributeError
    else Ok (fold_left Qplus (map score_or_zero (filter qualifies ls)) a).
Proof.
  revert a. induction ls as [| l ls IH]; intro a; [reflexivity |].
  cbn [for_each existsb filter]. unfold anatomical_step at 1.
  rewrite qualifies_not_below. unfold raises_on at 1.
  destruct (qualifies l); cbn [negb andb orb bind map fold_left].
  - destruct (lesion_score_cases l) as [[Hr He] | [Hr [s [He _]]]];
      rewrite Hr; cbn [orb].
    + unfold lesion_score in He.
      destruct (_get_base_score l) as [b | e]; [discriminate |].
      destruct e. reflexivity.
    + assert (Hs : score_or_zero l = s)
        by (unfold score_or_zero; rewrite He; reflexivity).
      rewrite Hs. unfold lesion_score in He.
      destruct (_get_base_score l) as [b |]; [| discriminate].
      cbn [bind] in He |- *. injection He as <-. apply IH.
  - apply IH.
Qed.

Lemma anatomical_score_spec (ls : list Lesion) :
  _calculate_anatomical_score ls
  = if existsb raises_on ls then Raise AttributeError
    else Ok (py_round
               (fold_left Qplus (map score_or_zero (filter qualifies ls)) 0)
               1).
Proof.
  unfold _calculate_anatomical_score, anatomical_total.
  rewrite anatomical_fold. destruct (existsb raises_on ls); reflexivity.
Qed.

Lemma fold_left_Qplus (xs : list Q) (a : Q) :
  fold_left Qplus xs a == a + Qsum xs.
Proof.
  revert a. induction xs as [| x xs IH]; intro a; cbn [fold_left Qsum].
  - ring.
  - rewrite IH. ring.
Qed.

Lemma existsb_permutation {A : Type} (f : A -> bool) (xs ys : list A) :
  Permutation xs ys -> existsb f xs = existsb f ys.
Proof.
  induction 1 as [| x xs ys _ IH | x y xs | xs ys zs _ IH1 _ IH2];
    cbn [existsb].
  - reflexivity.
  - rewrite IH. reflexivity.
  - destruct (f x), (f y); reflexivity.
  - rewrite IH1. exact IH2.
Qed.

Lemma qualifying_sum_permutation (ls ls' : list Lesion) :
  Permutation ls ls' ->
  Qsum (map score_or_zero (filter qualifies ls))
  == Qsum (map score_or_zero (filter qualifies ls')).
Proof.
  induction 1 as [| l ls ls' _ IH | l1 l2 ls | ls1 ls2 ls3 _ IH1 _ IH2].
  - reflexivity.
  - cbn [filter]. destruct (qualifies l); cbn [map Qsum]; rewrite IH;
      reflexivity.
  - cbn [filter]. destruct (qualifies l1), (qualifies l2); cbn [map Qsum];
      ring.
  - rewrite IH1. exact IH2.
Qed.

(** X3.  [_calculate_anatomical_score] does not depend on the order of the
    lesions: on the same lesions in another order it raises when it raised
    and returns the same score when it returned one. *)
Theorem syntax_order_independent (ls ls' : list Lesion) :
  Permutation ls ls' ->
  _calculate_anatomical_score ls' = _calculate_anatomical_score ls.
Proof.
  intro Hperm. rewrite !anatomical_score_spec.
  rewrite (existsb_permutation raises_on ls ls' Hperm).
  destruct (existsb raises_on ls'); [reflexivity |].
  f_equal. apply py_round_comp. rewrite !fold_left_Qplus.
  rewrite (qualifying_sum_permutation ls ls' Hperm). reflexivity.
Qed.

End SyntaxScore.

(** Left main, 75 percent, before and after a lesion of segment 2 with 60
    percent: the score is 8.5 in both orders. *)
Lemma syntax_order_independent_witness :
  let l1 := plain_lesion Patient.LM 75 Patient.PROXIMAL in
  let l2 := segment_lesion 2 Patient.RCA 60 Patient.MID in
  SyntaxCalculator._calculate_anatomical_score [l2; l1] = Ok (17 # 2) /\
  SyntaxCalculator._calculate_anatomical_score [l2; l1]
  = SyntaxCalculator._calculate_anatomical_score [l1; l2].
Proof.
  intros l1 l2. split; [vm_compute; reflexivity |].
  exact (syntax_order_independent [l1; l2] [l2; l1] (perm_swap l2 l1 [])).
Defined.

(** ** The package calculators on a patient with lesions *)

Section Raising.
Import Patient.

Lemma clinical_score_raises (p : PatientData) :
  SyntaxCalculator._calculate_clinical_score p = Raise AttributeError.
Proof. reflexivity. Qed.

Lemma anatomical_score_exn (ls : list Lesion) (e : exn) :
  SyntaxCalculator._calculate_anatomical_score ls = Raise e ->
  e = AttributeError.
Proof. destruct e. reflexivity. Qed.

(** X2.  [SyntaxCalculator.calculate] returns a result for a patient
    without lesions only.  For every patient with a lesion it raises
    [AttributeError]: in [_get_segment_id], at [lesion.location.value], or
    else in [_calculate_clinical_score], at [patient_data.gender.value]. *)
Theorem syntax_calculate_raises (p : PatientData) :
  (lesions p = [] ->
   SyntaxCalculator.calculate p
   = Ok (SyntaxCalculator.mkResult 0 0 0 0 SyntaxCalculator.low)) /\
  (lesions p <> [] -> SyntaxCalculator.calculate p = Raise AttributeError) /\
  ((exists r, SyntaxCalculator.calculate p = Ok r) <-> lesions p = []).
Proof.
  unfold SyntaxCalculator.calculate.
  destruct (lesions p) as [| l ls].
  - split; [reflexivity |]. split; [congruence |].
    split; [reflexivity | intros _; eexists; reflexivity].
  - assert (Hraise : (anatomical_score <-
                        SyntaxCalculator._calculate_anatomical_score
                          (l :: ls) ;;
                      clinical_score <-
                        SyntaxCalculator._calculate_clinical_score p ;;
                      syntax_ii_score <-
                        SyntaxCalculator._calculate_syntax_ii_score p
                          anatomical_score ;;
                      Ok (SyntaxCalculator.mkResult anatomical_score
                            anatomical_score clinical_score syntax_ii_score
                            (SyntaxCalculator._get_risk_category
                               anatomical_score)))
                     = Raise AttributeError).
    { destruct (SyntaxCalculator._calculate_anatomical_score (l :: ls))
        as [a | e]; [reflexivity | destruct e; reflexivity]. }
    rewrite Hraise. split; [discriminate |]. split; [reflexivity |].
    split; [intros [r Hr]; discriminate | discriminate].
Qed.

(** X8.  [GensiniCalculator.calculate] returns a result for a patient
    without lesions only.  For every patient with a lesion it raises
    [AttributeError] on the first lesion: in [_get_vessel_weight], at
    [lesion.location.value], or else at [lesion.vessel.value]. *)
Theorem gensini_calculate_raises (p : PatientData) :
  (lesions p = [] ->
   GensiniCalculator.calculate p
   = Ok (GensiniCalculator.mkResult 0 [] [] GensiniCalculator.normal)) /\
  (lesions p <> [] -> GensiniCalculator.calculate p = Raise AttributeError) /\
  ((exists r, GensiniCalculator.calculate p = Ok r) <-> lesions p = []).
Proof.
  unfold GensiniCalculator.calculate.
  destruct (lesions p) as [| l ls].
  - split; [reflexivity |]. split; [congruence |].
    split; [reflexivity | intros _; eexists; reflexivity].
  - assert (Hloop : for_each GensiniCalculator.calculate_step (l :: ls)
                      (O, 0, [], []) = Raise AttributeError).
    { cbn [for_each]. unfold GensiniCalculator.calculate_step at 1.
      destruct (GensiniCalculator._get_vessel_weight l) as [w | e];
        [reflexivity | destruct e; reflexivity]. }
    rewrite Hloop. cbn [bind].
    split; [discriminate |]. split; [reflexivity |].
    split; [intros [r Hr]; discriminate | discriminate].
Qed.

(** X11.  [CadRadsCalculator.calculate] returns a result for a patient
    without lesions only.  [_calculate_vessel_grades] reads
    [lesion.vessel.value] on the first lesion and raises [AttributeError],
    and so does [calculate] for every patient with a lesion. *)
Theorem cad_rads_calculate_raises (p : PatientData) :
  (forall l ls, CadRadsCalculator._calculate_vessel_grades (l :: ls)
                = Raise AttributeError) /\
  CadRadsCalculator._calculate_vessel_grades [] = Ok [] /\
  (lesions p <> [] -> CadRadsCalculator.calculate p = Raise AttributeError) /\
  ((exists r, CadRadsCalculator.calculate p = Ok r) <-> lesions p = []).
Proof.
  split; [reflexivity |]. split; [reflexivity |].
  unfold CadRadsCalculator.calculate.
  destruct (lesions p) as [| l ls].
  - split; [congruence |].
    split; [reflexivity | intros _; eexists; reflexivity].
  - split; [reflexivity |].
    split; [intros [r Hr]; discriminate | discriminate].
Qed.

(** X14.  The risk level of the CAD-RADS report is never computed:
    [_assess_risk_level] counts the risk factors up to the gender, reads
    [patient_data.gender.value] and raises [AttributeError], for every
    grade and every patient. *)
Theorem assess_risk_level_raises (grade : Z) (p : PatientData) :
  CadRadsReport._assess_risk_level grade p = Raise AttributeError.
Proof. reflexivity. Qed.

End Raising.

(** ** SYNTAX: the lesions that count *)

Section SyntaxThreshold.
Import Patient SyntaxCalculator.

(** The loop of [calculate_syntax_score] adds, as floats and in their
    order, the scores of the lesions from 50 percent on. *)
Lemma syntax_step_total (ls : list CoronaryScoreCalculator.lesion)
    (st : Q * list CoronaryScoreCalculator.LesionDetail) :
  fst (fold_left CoronaryScoreCalculator.syntax_step ls st)
  = fsum_from (fst st) (map dict_lesion_score (filter dict_qualifies ls)).
Proof.
  revert st. induction ls as [| l ls IH]; intros [total details];
    cbn [fold_left filter]; [reflexivity |].
  rewrite IH. unfold CoronaryScoreCalculator.syntax_step at 1.
  unfold dict_qualifies at 2, Qltb, Qgeb.
  destruct (Qle_bool 50 (CoronaryScoreCalculator.stenosis_percent l));
    cbn [negb fst map]; reflexivity.
Qed.

(** C3.  The totals that the calculators return are rounded to one decimal
    place.  For the single lesion LAD proximal 75 percent the sum of the
    scores of the lesions from 50 percent on is 3.5 * 1.5 = 5.25, which is
    what [test_single_simple_lesion] expects.  The dictionary calculator
    returns the float 5.2.  So does [_calculate_anatomical_score] of the
    package when the lesion carries its segment id 6; on the patient of the
    test, whose lesion has no segment id, the package calculator raises
    [AttributeError]. *)
Theorem C3_total_is_rounded :
  let d := plain_dict (u "LAD") (u "proximal") 75 in
  let l := segment_lesion 6 LAD 75 PROXIMAL in
  dict_qualifies d = true /\
  fsum_from 0 (map dict_lesion_score (filter dict_qualifies [d])) = 21 # 4 /\
  CoronaryScoreCalculator.total_score
    (CoronaryScoreCalculator.calculate_syntax_score [d])
  = float_literal (26 # 5) /\
  ~ float_literal (26 # 5) == 21 # 4 /\
  qualifies l = true /\
  lesion_score l = Ok (21 # 4) /\
  _calculate_anatomical_score [l] = Ok (float_literal (26 # 5)) /\
  calculate (plain_patient [plain_lesion LAD 75 PROXIMAL])
  = Raise AttributeError.
Proof.
  cbv zeta. repeat split; try (vm_compute; reflexivity).
  intro Heq. vm_compute in Heq. discriminate.
Qed.

End SyntaxThreshold.

(** ** The significant lesions of a patient *)

Section SignificantLesions.
Import Patient PatientMethods SyntaxCalculator.

Lemma filter_twice {A : Type} (keep : A -> bool) (xs : list A) :
  filter keep (filter keep xs) = filter keep xs.
Proof.
  induction xs as [| x xs IH]; [reflexivity |].
  cbn [filter]. destruct (keep x) eqn:E; [| exact IH].
  cbn [filter]. rewrite E, IH. reflexivity.
Qed.

Lemma raises_among_qualifying (ls : list Lesion) :
  existsb raises_on (filter qualifies ls) = existsb raises_on ls.
Proof.
  induction ls as [| l ls IH]; [reflexivity |].
  cbn [filter existsb]. unfold raises_on at 2.
  destruct (qualifies l) eqn:E; cbn [existsb andb orb].
  - unfold raises_on at 1. rewrite E, IH. reflexivity.
  - exact IH.
Qed.

(** X20.  [_calculate_anatomical_score] sees the significant lesions only:
    on [get_significant_lesions(50)] of a patient it does what it does on
    all the lesions of the patient, raise or return the same score. *)
Theorem syntax_of_significant_lesions (p : PatientData) :
  _calculate_anatomical_score (get_significant_lesions p 50)
  = _calculate_anatomical_score (lesions p).
Proof.
  rewrite !anatomical_score_spec.
  change (get_significant_lesions p 50) with (filter qualifies (lesions p)).
  rewrite raises_among_qualifying, filter_twice. reflexivity.
Qed.

End SignificantLesions.

(** ** Weights of a lesion *)

Lemma str_eqb_eq (a b : str) : str_eqb a b = true <-> a = b.
Proof.
  revert b. induction a as [| x a IH]; intros [| y b]; cbn;
    try (split; [discriminate | discriminate]); [tauto |].
  rewrite andb_true_iff, N.eqb_eq, IH. split.
  - intros [-> ->]. reflexivity.
  - intro Heq. injection Heq as -> ->. split; reflexivity.
Qed.

Lemma str_eqb_refl (a : str) : str_eqb a a = true.
Proof. apply str_eqb_eq. reflexivity. Qed.

(** Split on the tests of a name against the literals of a table; where a
    test holds the name is that literal and both sides compute. *)
Ltac str_cases v :=
  repeat match goal with
  | |- context [str_eqb v (u ?k)] =>
      let E := fresh "E" in
      destruct (str_eqb v (u k)) eqn:E;
      [apply str_eqb_eq in E; subst v; vm_compute; reflexivity |]
  end.

Section Weights.
Import Patient.

Lemma sheet_syntax_weight_spec (v : str) :
  dict_get_default str_eqb CoronaryScoreCalculator.vessel_weights v 1
  = sheet_syntax_weight v.
Proof.
  cbv [dict_get_default dict_get CoronaryScoreCalculator.vessel_weights
       sheet_syntax_weight].
  str_cases v. reflexivity.
Qed.

Lemma sheet_gensini_weight_spec (v : str) :
  dict_get_default str_eqb CoronaryScoreCalculator.gensini_weights v 1
  = sheet_gensini_weight v.
Proof.
  cbv [dict_get_default dict_get CoronaryScoreCalculator.gensini_weights
       sheet_gensini_weight].
  str_cases v. reflexivity.
Qed.

(** The weights of the two tables are floats, which a product with 1.0
    leaves as they are. *)
Lemma sheet_syntax_weight_float (v : str) :
  fmul (sheet_syntax_weight v) 1 = sheet_syntax_weight v.
Proof.
  unfold sheet_syntax_weight.
  destruct (str_eqb v (u "LM")); [vm_compute; reflexivity |].
  destruct (str_eqb v (u "LAD") || str_eqb v (u "LCX") || str_eqb v (u "RCA"));
    [vm_compute; reflexivity |].
  destruct (str_eqb v (u "PLV")); vm_compute; reflexivity.
Qed.

Lemma sheet_gensini_weight_float (v : str) :
  fmul (sheet_gensini_weight v) 1 = sheet_gensini_weight v.
Proof.
  unfold sheet_gensini_weight.
  destruct (str_eqb v (u "LM")); [vm_compute; reflexivity |].
  destruct (str_eqb v (u "LAD") || str_eqb v (u "LCX"));
    [vm_compute; reflexivity |].
  destruct (str_eqb v (u "PLV")); vm_compute; reflexivity.
Qed.

(** What the package calculator does with a vessel that [vessel_mapping]
    does not know: the lesion is given segment 1, the proximal right
    coronary artery, whose weight is 3.5. *)
Lemma syntax_unmapped_vessel (l : Lesion) :
  segment_id l = None ->
  SyntaxCalculator.vessel_mapping (as_member (vessel l)) = None ->
  SyntaxCalculator._get_segment_id l = Ok 1%Z /\
  SyntaxCalculator.segment_weight l = Ok (7 # 2).
Proof.
  intros Hseg Hmap.
  unfold SyntaxCalculator.segment_weight, SyntaxCalculator._get_segment_id.
  rewrite Hseg, Hmap. cbn. split; reflexivity.
Qed.

(** And with a lesion of LAD, LCX or RCA that has no segment id: it
    raises. *)
Lemma syntax_located_vessel (l : Lesion) :
  segment_id l = None ->
  located_vessel (as_member (vessel l)) = true ->
  SyntaxCalculator.segment_weight l = Raise AttributeError /\
  SyntaxCalculator._get_base_score l = Raise AttributeError.
Proof.
  intros Hseg Hloc.
  unfold SyntaxCalculator._get_base_score, SyntaxCalculator.segment_weight.
  destruct (get_segment_id_cases l) as [[_ ->] | [Hr _]].
  - split; reflexivity.
  - unfold reads_location in Hr. rewrite Hseg, Hloc in Hr. discriminate.
Qed.

(** C4, as amended.  For a lesion from 50 percent on without segment id:
    in the dictionary calculator the base weight is the weight of the
    vessel (LM 5.0, LAD, LCX and RCA 3.5, PLV 0.5, every other name 1.0)
    times the location factor (mid 0.7, distal 0.4, else 1.0), a product of
    floats; in the package calculator a lesion of the left main has the
    weight 5.0 of segment 5 whatever its location, with no location
    factor. *)
Theorem C4_base_weight (l : Lesion) (d : CoronaryScoreCalculator.lesion) :
  segment_id l = None ->
  50 <= stenosis_percent l ->
  as_member (vessel l) = LM ->
  50 <= CoronaryScoreCalculator.stenosis_percent d ->
  SyntaxCalculator.segment_weight l = Ok 5 /\
  SyntaxCalculator._get_base_score l
    = Ok (5 * SyntaxCalculator.stenosis_factor l) /\
  CoronaryScoreCalculator.syntax_base_weight d
    = fmul (sheet_syntax_weight (CoronaryScoreCalculator.vessel d))
        (location_multiplier (float_literal (7 # 10)) (float_literal (4 # 10))
           (CoronaryScoreCalculator.get_location d)).
Proof.
  intros Hseg _ Hv _.
  assert (Hweight : SyntaxCalculator.segment_weight l = Ok 5).
  { unfold SyntaxCalculator.segment_weight, SyntaxCalculator._get_segment_id.
    rewrite Hseg, Hv. reflexivity. }
  split; [exact Hweight |]. split.
  - unfold SyntaxCalculator._get_base_score. rewrite Hweight. reflexivity.
  - unfold CoronaryScoreCalculator.syntax_base_weight.
    rewrite sheet_syntax_weight_spec. cbv zeta. unfold location_multiplier.
    destruct (str_eqb (CoronaryScoreCalculator.get_location d) (u "mid"));
      [reflexivity |].
    destruct (str_eqb (CoronaryScoreCalculator.get_location d) (u "distal"));
      [reflexivity |].
    symmetry. apply sheet_syntax_weight_float.
Qed.

(** A mid lesion of the left main and a mid LAD dictionary, 60 percent. *)
Lemma C4_base_weight_witness :
  SyntaxCalculator.segment_weight (plain_lesion LM 60 MID) = Ok 5 /\
  CoronaryScoreCalculator.syntax_base_weight
    (plain_dict (u "LAD") (u "mid") 60)
  = fmul (sheet_syntax_weight (u "LAD"))
      (location_multiplier (float_literal (7 # 10)) (float_literal (4 # 10))
         (u "mid")).
Proof.
  assert (H50 : 50 <= 60) by (unfold Qle; cbn; lia).
  destruct (C4_base_weight (plain_lesion LM 60 MID)
              (plain_dict (u "LAD") (u "mid") 60)
              eq_refl H50 eq_refl H50) as (Hp & _ & Hd).
  split; [exact Hp | exact Hd].
Defined.

(** C4 as stated fails.  A mid lesion of the left main without segment id,
    60 percent, has base weight 5.0 in the package calculator, not
    5.0 * 0.7 = 3.5.  A proximal PLV lesion has base weight 0.5 in the
    dictionary calculator, not 1.0. *)
Lemma C4_base_weight_counterexample :
  segment_id (plain_lesion LM 60 MID) = None /\
  qualifies (plain_lesion LM 60 MID) = true /\
  SyntaxCalculator.segment_weight (plain_lesion LM 60 MID) = Ok 5 /\
  fmul 5 (float_literal (7 # 10)) = 7 # 2 /\
  ~ (5 == 7 # 2) /\
  CoronaryScoreCalculator.syntax_base_weight
    (plain_dict (u "PLV") (u "proximal") 60) = 1 # 2 /\
  ~ (1 # 2 == 1).
Proof.
  repeat split; try (vm_compute; reflexivity);
    intro Heq; vm_compute in Heq; discriminate.
Qed.

End Weights.

(** ** Gensini weight of a lesion *)

Section GensiniWeight.
Import Patient GensiniCalculator.

Lemma inferred_weight_raises (l : Lesion) :
  inferred_weight l = Raise AttributeError.
Proof. reflexivity. Qed.

Lemma gensini_weights_domain (id : Z) :
  match dict_get Z.eqb vessel_weights id with
  | Some w => table_segment (Some id) = true /\ 1 # 2 <= w /\ w <= 5
  | None => table_segment (Some id) = false
  end.
Proof.
  unfold table_segment.
  destruct (Z_lt_le_dec id 1) as [Hlo | Hlo].
  - replace (dict_get Z.eqb vessel_weights id) with (@None Q).
    + zdecide. reflexivity.
    + cbv [dict_get vessel_weights VesselSegments.GENSINI_WEIGHTS].
      zdecide. reflexivity.
  - destruct (Z_lt_le_dec 16 id) as [Hhi | Hhi].
    + replace (dict_get Z.eqb vessel_weights id) with (@None Q).
      * zdecide. rewrite andb_false_r. reflexivity.
      * cbv [dict_get vessel_weights VesselSegments.GENSINI_WEIGHTS].
        zdecide. reflexivity.
    + assert (Hid : In id (map Z.of_nat (seq 1 16))).
      { apply in_map_iff. exists (Z.to_nat id). split; [lia |].
        apply in_seq. lia. }
      cbn in Hid.
      repeat (destruct Hid as [<- | Hid];
              [vm_compute; repeat split; discriminate |]).
      destruct Hid.
Qed.

(** [_get_vessel_weight] returns the weight of the table for a lesion whose
    segment id is one of 1 to 16, and raises on every other lesion. *)
Lemma vessel_weight_cases (l : Lesion) :
  (table_segment (segment_id l) = true /\
   exists id w, segment_id l = Some id /\
                dict_get Z.eqb vessel_weights id = Some w /\
                _get_vessel_weight l = Ok w /\ 1 # 2 <= w /\ w <= 5) \/
  (table_segment (segment_id l) = false /\
   _get_vessel_weight l = Raise AttributeError).
Proof.
  unfold _get_vessel_weight.
  destruct (segment_id l) as [id |]; cbn [truthy_Z].
  - pose proof (gensini_weights_domain id) as Hdom.
    destruct (dict_get Z.eqb vessel_weights id) as [w |] eqn:Eg.
    + destruct Hdom as (Ht & Hw1 & Hw2). left. split; [exact Ht |].
      exists id, w.
      assert (Hne : (id =? 0)%Z = false).
      { cbn [table_segment] in Ht. apply andb_true_iff in Ht.
        destruct Ht as [Ht _]. apply Z.leb_le in Ht. apply Z.eqb_neq. lia. }
      rewrite Hne. cbn [negb]. repeat split; assumption.
    + right. split; [exact Hdom |].
      destruct (negb (id =? 0)%Z); reflexivity.
  - right. split; reflexivity.
Qed.

(** C5.  In the package calculator a lesion whose segment id is one of 1 to
    16 has the weight of the segment in [GENSINI_WEIGHTS].  Every other
    lesion makes [_get_vessel_weight] read [lesion.location.value], which
    raises [AttributeError]: so for a proximal lesion of the left main of
    60 percent, whose weight is 5.0 * 1.0.  The dictionary calculator has
    the weight that the claim states: the weight of the vessel (LM 5.0, LAD
    and LCX 2.5, PLV 0.5, every other name 1.0) times the location factor
    (mid 0.8, distal 0.5, else 1.0), a product of floats. *)
Theorem C5_gensini_vessel_weight (l : Lesion)
    (d : CoronaryScoreCalculator.lesion) :
  (forall id w, segment_id l = Some id ->
     dict_get Z.eqb VesselSegments.GENSINI_WEIGHTS id = Some w ->
     _get_vessel_weight l = Ok w) /\
  (table_segment (segment_id l) = false ->
   _get_vessel_weight l = Raise AttributeError) /\
  _get_vessel_weight (plain_lesion LM 60 PROXIMAL) = Raise AttributeError /\
  fmul (gensini_base_weight LM) 1 = 5 /\
  CoronaryScoreCalculator.gensini_vessel_weight d
    = fmul (sheet_gensini_weight (CoronaryScoreCalculator.vessel d))
        (location_multiplier (float_literal (8 # 10)) (float_literal (5 # 10))
           (CoronaryScoreCalculator.get_location d)).
Proof.
  split; [| split; [| split; [| split]]].
  - intros id w Hid Hw.
    destruct (vessel_weight_cases l)
      as [(_ & id' & w' & Hid' & Hw' & Hres & _) | (Ht & _)].
    + rewrite Hid in Hid'. injection Hid' as <-.
      change vessel_weights with VesselSegments.GENSINI_WEIGHTS in Hw'.
      rewrite Hw in Hw'. injection Hw' as <-. exact Hres.
    + rewrite Hid in Ht. pose proof (gensini_weights_domain id) as Hdom.
      change vessel_weights with VesselSegments.GENSINI_WEIGHTS in Hdom.
      rewrite Hw in Hdom. destruct Hdom as [Ht' _]. congruence.
  - intro Ht.
    destruct (vessel_weight_cases l) as [(Ht' & _) | (_ & Hres)];
      [congruence | exact Hres].
  - reflexivity.
  - vm_compute. reflexivity.
  - unfold CoronaryScoreCalculator.gensini_vessel_weight.
    rewrite sheet_gensini_weight_spec. cbv zeta. unfold location_multiplier.
    destruct (str_eqb (CoronaryScoreCalculator.get_location d) (u "mid"));
      [reflexivity |].
    destruct (str_eqb (CoronaryScoreCalculator.get_location d) (u "distal"));
      [reflexivity |].
    symmetry. apply sheet_gensini_weight_float.
Qed.

(** X7.  [_get_vessel_weight] returns a weight exactly for the lesions
    whose segment id is one of 1 to 16, and the weight then lies between
    0.5 and 5; on every other lesion it raises [AttributeError]. *)
Theorem gensini_vessel_weight_bounds (l : Lesion) :
  ((exists w, _get_vessel_weight l = Ok w) <->
   table_segment (segment_id l) = true) /\
  (_get_vessel_weight l = Raise AttributeError <->
   table_segment (segment_id l) = false) /\
  (forall w, _get_vessel_weight l = Ok w -> 1 # 2 <= w /\ w <= 5).
Proof.
  destruct (vessel_weight_cases l)
    as [(Ht & id & w & _ & _ & Hres & Hb) | (Ht & Hres)];
    rewrite Hres, Ht.
  - split; [split; [reflexivity | intros _; exists w; reflexivity] |].
    split; [split; discriminate |].
    intros w' Hw'. injection Hw' as <-. exact Hb.
  - split; [split; [intros [w Hw]; discriminate | discriminate] |].
    split; [tauto |]. intros w Hw. discriminate.
Qed.

End GensiniWeight.

(** ** Substrings *)

Lemma startswith_iff (k s : str) :
  startswith k s = true <-> exists b, s = k ++ b.
Proof.
  revert s. induction k as [| x k IH]; intro s; cbn.
  - split; [intros _; exists s; reflexivity | reflexivity].
  - destruct s as [| y s].
    + split; [discriminate | intros [b Hb]; discriminate].
    + rewrite andb_true_iff, N.eqb_eq, IH. split.
      * intros [-> [b ->]]. exists b. reflexivity.
      * intros [b Hb]. injection Hb as -> ->. split; [reflexivity |].
        exists b. reflexivity.
Qed.

Lemma contains_iff (k s : str) :
  contains k s = true <-> exists a b, s = a ++ k ++ b.
Proof.
  induction s as [| y s IH].
  - cbn. rewrite orb_false_r, startswith_iff. split.
    + intros [b Hb]. exists [], b. exact Hb.
    + intros [a [b Hab]]. destruct a as [| z a]; [| discriminate].
      exists b. exact Hab.
  - cbn [contains]. rewrite orb_true_iff, startswith_iff, IH. split.
    + intros [[b Hb] | [a [b Hab]]].
      * exists [], b. exact Hb.
      * exists (y :: a), b. rewrite Hab. reflexivity.
    + intros [a [b Hab]]. destruct a as [| z a].
      * left. exists b. exact Hab.
      * right. injection Hab as _ Hab. exists a, b. exact Hab.
Qed.

Lemma contains_infix (k s a b : str) :
  contains k s = true -> contains k (a ++ s ++ b) = true.
Proof.
  rewrite !contains_iff. intros [a' [b' ->]].
  exists (a ++ a'), (b' ++ b). rewrite <- !app_assoc. reflexivity.
Qed.

Section Strip.
Context `{UnicodeData}.

Lemma lstrip_suffix (s : str) : exists a, s = a ++ lstrip s.
Proof.
  induction s as [| c s [a IH]]; cbn.
  - exists []. reflexivity.
  - destruct (isspace c).
    + exists (c :: a). cbn. rewrite <- IH. reflexivity.
    + exists []. reflexivity.
Qed.

Lemma strip_infix (s : str) : exists a b, s = a ++ strip s ++ b.
Proof.
  unfold strip.
  destruct (lstrip_suffix s) as [a Ha].
  destruct (lstrip_suffix (rev (lstrip s))) as [b Hb].
  exists a, (rev b).
  rewrite <- rev_app_distr, <- Hb, rev_involutive. exact Ha.
Qed.

(** A substring of the stripped text is a substring of the text. *)
Lemma contains_strip (k s : str) :
  contains k (strip s) = true -> contains k s = true.
Proof.
  intro Hk. destruct (strip_infix s) as [a [b Hs]].
  rewrite Hs. apply contains_infix. exact Hk.
Qed.

Lemma contains_any_strip (ks : list str) (s : str) :
  contains_any ks s = false -> contains_any ks (strip s) = false.
Proof.
  unfold contains_any. intro Hnone.
  destruct (existsb (fun k => contains k (strip s)) ks) eqn:E;
    [| reflexivity].
  apply existsb_exists in E. destruct E as [k [Hin Hk]].
  assert (Hsome : existsb (fun k => contains k s) ks = true).
  { apply existsb_exists. exists k. split; [exact Hin |].
    apply contains_strip. exact Hk. }
  congruence.
Qed.

End Strip.

(** ** Stenosis text *)

Section Extraction.
Context `{UnicodeData}.
Import Dialog.

(** A text without percent sign and without keyword gives no value. *)
Lemma extract_gate (text : cell) (use_range_upper : bool) :
  contains (u "%") (py_str text) = false ->
  contains_any STENOSIS_KEYWORDS (py_str text) = false ->
  extract_stenosis_percent text use_range_upper = None.
Proof.
  intros Hpct Hkw. unfold extract_stenosis_percent.
  destruct (isna text); [reflexivity |].
  destruct (is_empty (strip (py_str text))); [reflexivity |].
  assert (Hp : contains (u "%") (strip (py_str text)) = false).
  { destruct (contains (u "%") (strip (py_str text))) eqn:E;
      [| reflexivity].
    apply contains_strip in E. congruence. }
  rewrite Hp, (contains_any_strip _ _ Hkw). reflexivity.
Qed.

(** Past the gate, without negative marker, occlusion marker and severity
    adjective, the value is the largest of the numbers of the text, and
    there is none when the text has no number. *)
Lemma extract_numbers (text : cell) (use_range_upper : bool) :
  let s := strip (py_str text) in
  isna text = false ->
  is_empty s = false ->
  contains (u "%") s || contains_any STENOSIS_KEYWORDS s = true ->
  contains_any [u "无狭窄"; u "正常"; u "未见狭窄"] s = false ->
  contains_any [u "完全闭塞"; u "闭塞"; u "100%"; u "CTO"] s = false ->
  contains_any [u "重度"; u "严重"; u "中度"; u "轻度"] s = false ->
  extract_stenosis_percent text use_range_upper
  = py_max (map float_of (findall_numbers s)).
Proof.
  intros s Hna Hne Hgate Hneg Hocc Hadj.
  unfold extract_stenosis_percent. fold s.
  rewrite Hna, Hne, Hneg, Hocc.
  assert (Hg : negb (contains (u "%") s)
               && negb (contains_any STENOSIS_KEYWORDS s) = false).
  { rewrite <- negb_orb, Hgate. reflexivity. }
  rewrite Hg.
  unfold contains_any in Hadj. cbn [existsb] in Hadj.
  rewrite !orb_false_iff in Hadj.
  destruct Hadj as (H1 & H2 & H3 & H4 & _).
  rewrite H1, H2, H3, H4. cbn [orb].
  destruct (findall_numbers s) as [| n ns]; [reflexivity |].
  destruct (use_range_upper &&
            contains_any [u "-"; u "~"; u "至"; u "—"; u "－"] s);
    reflexivity.
Qed.


(** C7.  A cell whose text has no percent sign and none of the keywords
    gives no stenosis value, and the body of the loop over the segment
    columns yields no lesion for the column that holds it: it reaches
    [continue] and raises nothing. *)
Theorem C7_cell_without_stenosis_statement
    (df_columns : list str) (include_zero : bool) (r : row) (col : str) :
  contains (u "%") (py_str (r col)) = false ->
  contains_any STENOSIS_KEYWORDS (py_str (r col)) = false ->
  extract_stenosis_percent (r col) true = None /\
  (forall pid age gender vessel location,
     segment_lesions df_columns include_zero r pid age gender
       (col, (vessel, location)) = []).
Proof.
  intros Hpct Hkw.
  pose proof (extract_gate (r col) true Hpct Hkw) as Hnone.
  split; [exact Hnone |].
  intros. unfold segment_lesions. rewrite Hnone.
  destruct (negb (str_mem col df_columns)); reflexivity.
Qed.

End Extraction.

(** A row whose proximal right coronary column holds a remark that is no
    stenosis statement, and whose left main column holds one: the first
    column yields nothing, the second one lesion. *)
Lemma C7_cell_without_stenosis_statement_witness :
  let r : row := fun col =>
    if str_eqb col (u "subjid") then Text (u "P001")
    else if str_eqb col (u "右冠近段") then Text (u "未查")
    else if str_eqb col (u "左主干") then Text (u "狭窄30%")
    else NaN in
  let columns := [u "subjid"; u "右冠近段"; u "左主干"] in
  Dialog.extract_stenosis_percent (r (u "右冠近段")) true = None /\
  Dialog.segment_lesions columns false r (u "P001") NaN (u "male")
    (u "右冠近段", (u "RCA", u "proximal")) = [] /\
  Dialog.segment_lesions columns false r (u "P001") NaN (u "male")
    (u "左主干", (u "LM", u "proximal"))
  = [Dialog.mkLesion (u "P001") NaN (u "male") (u "LM") (u "proximal") 30].
Proof.
  intros r columns.
  destruct (C7_cell_without_stenosis_statement columns false r
              (u "右冠近段") eq_refl eq_refl) as (Hnone & Hseg).
  split; [exact Hnone |]. split; [apply Hseg |].
  vm_compute. reflexivity.
Defined.

(** C6.  The severity adjectives are tested before the numbers are read.
    The text "中度狭窄60%" passes the gate, has no negative and no occlusion
    marker and holds the one number 60; its value is 70.  Likewise
    "重度狭窄95%" has the value 90, and "轻度狭窄，约20-30%" the value 50. *)
Theorem C6_adjective_before_number :
  let s := u "中度狭窄60%" in
  contains (u "%") s = true /\
  contains_any [u "无狭窄"; u "正常"; u "未见狭窄"] s = false /\
  contains_any [u "完全闭塞"; u "闭塞"; u "100%"; u "CTO"] s = false /\
  Dialog.findall_numbers s = [u "60"] /\
  py_max (map Dialog.float_of (Dialog.findall_numbers s)) = Some 60 /\
  Dialog.extract_stenosis_percent (Text s) true = Some 70 /\
  Dialog.extract_stenosis_percent (Text (u "重度狭窄95%")) true = Some 90 /\
  Dialog.extract_stenosis_percent (Text (u "轻度狭窄，约20-30%")) true
  = Some 50.
Proof. cbv zeta. repeat split; vm_compute; reflexivity. Qed.

(** ** Column analysis *)

(** C8.  The containment score is [len(alias) / len(column) * 80] in both
    directions, so a column shorter than the alias that contains it scores
    above 80.  The one-letter column "a" scores 800 against the alias
    "patient_id" and is taken for the patient identifier (by the claimed
    score, 1/10 * 80 = 8, it would be left out).  With the columns "age" and
    "ag", "ag" scores 120 against the alias "age" and takes the field from
    the exact match "age", whose score is 100. *)
Theorem C8_short_column_outscores_exact_match :
  Converter.containment_score (u "patient_id") (u "a") == 800 /\
  Converter.analyze_columns [u "a"] = [(u "patient_id", u "a")] /\
  Converter.containment_score (u "age") (u "ag") == 120 /\
  dict_get str_eqb (Converter.analyze_columns [u "age"; u "ag"]) (u "age")
  = Some (u "ag").
Proof. repeat split; vm_compute; reflexivity. Qed.

(** ** Merge *)

Section Merge.
Context `{Dialog.Pandas}.
Import Dialog.

(** Dropping records keeps their keys distinct. *)
Lemma filter_keeps_distinct {A B : Type} (key : A -> B) (keep : A -> bool)
    (xs : list A) :
  NoDup (map key xs) -> NoDup (map key (filter keep xs)).
Proof.
  induction xs as [| a xs IH]; cbn; intro Hnd; [constructor |].
  inversion Hnd as [| x xs' Hnotin Hnd']; subst.
  destruct (keep a); cbn; [| apply IH; exact Hnd'].
  constructor; [| apply IH; exact Hnd'].
  intro Hin. apply Hnotin.
  apply in_map_iff in Hin. destruct Hin as [b [Hb Hinb]].
  apply filter_In in Hinb. apply in_map_iff. exists b. tauto.
Qed.

(** With one record for an identifier at most, a row of the left table
    gives one row of the merged table. *)
Lemma merge_left_row_single (agg_df : list AggregatedScores) (r : row) :
  NoDup (map patient_id agg_df) ->
  exists m,
    merge_left_row agg_df r = [m] /\
    input_cells m = r /\
    ((forall v, In v agg_df -> same_key (r (u "subjid")) v = false) ->
     m = without_scores r) /\
    (forall v, In v agg_df -> same_key (r (u "subjid")) v = true ->
     m = with_scores r v).
Proof.
  intro Hnd. unfold merge_left_row.
  set (same := same_key (r (u "subjid"))).
  pose proof (filter_keeps_distinct patient_id same agg_df Hnd) as Hndf.
  assert (Hkey : forall v w, same v = true -> same w = true ->
                             patient_id v = patient_id w).
  { intros v w Hv Hw. unfold same, same_key in Hv, Hw.
    destruct (r (u "subjid")) as [| s | z]; try discriminate.
    apply str_eqb_eq in Hv, Hw. congruence. }
  assert (Hsame : forall v, In v (filter same agg_df) ->
                            In v agg_df /\ same v = true).
  { intros v Hin. apply filter_In in Hin. exact Hin. }
  assert (Hfound : forall v, In v agg_df -> same v = true ->
                             In v (filter same agg_df)).
  { intros v Hin Hk. apply filter_In. split; assumption. }
  destruct (filter same agg_df) as [| v0 [| v1 rest]] eqn:Ef.
  - exists (without_scores r). repeat split.
    intros v Hin Hk. destruct (Hfound v Hin Hk).
  - exists (with_scores r v0). repeat split.
    + intro Hnone. destruct (Hsame v0 (or_introl eq_refl)) as [Hin Hk].
      rewrite (Hnone v0 Hin) in Hk. discriminate.
    + intros v Hin Hk. destruct (Hfound v Hin Hk) as [<- | []]. reflexivity.
  - exfalso.
    destruct (Hsame v0 (or_introl eq_refl)) as [_ Hk0].
    destruct (Hsame v1 (or_intror (or_introl eq_refl))) as [_ Hk1].
    cbn in Hndf. inversion Hndf as [| x xs Hnotin _]; subst.
    apply Hnotin. left. symmetry. apply Hkey; assumption.
Qed.

Lemma subjid_astype_str_subjid (r : row) :
  isna (r (u "subjid")) = false ->
  subjid_astype_str r (u "subjid") = Text (py_str (r (u "subjid"))).
Proof.
  intro Hna. unfold subjid_astype_str. rewrite Hna. reflexivity.
Qed.

Lemma subjid_astype_str_other (r : row) (col : str) :
  str_eqb col (u "subjid") = false -> subjid_astype_str r col = r col.
Proof. intro Hne. unfold subjid_astype_str. rewrite Hne. reflexivity. Qed.

(** A table without the column [subjid] makes [merge_scores] raise
    [KeyError], and a table with a column named like a column of [agg_df]
    does not come to the plain left join. *)
Lemma merge_scores_without_subjid (df : DataFrame)
    (agg : list (str * AggregatedScores)) :
  str_mem (u "subjid") (columns df) = false ->
  merge_scores df agg = KeyErrorRaised.
Proof. intro Hno. unfold merge_scores. rewrite Hno. reflexivity. Qed.

Lemma merge_scores_clash (df : DataFrame)
    (agg : list (str * AggregatedScores)) (c : str) :
  str_mem (u "subjid") (columns df) = true ->
  In c agg_df_columns -> str_mem c (columns df) = true ->
  merge_scores df agg = ColumnsClash.
Proof.
  intros Hsub Hin Hc. unfold merge_scores. rewrite Hsub. cbn [negb].
  assert (Hex : existsb (fun c => str_mem c (columns df)) agg_df_columns
                = true).
  { apply existsb_exists. exists c. split; assumption. }
  rewrite Hex. reflexivity.
Qed.

(** C9, as amended.  For a table that has the column [subjid] and no column
    named [patient_id] or like an appended column, and score records with
    distinct patient identifiers: the merged table has one row for each
    input row, in the input order; in it every input column other than
    [subjid] keeps its cell; for a row whose identifier is not missing,
    [subjid] holds the string form of the identifier, the appended columns
    hold the values of the record with that string as identifier, and they
    are all null when there is no such record. *)
Theorem C9_merge_is_left_join (df : DataFrame)
    (agg : list (str * AggregatedScores)) :
  str_mem (u "subjid") (columns df) = true ->
  (forall c, In c agg_df_columns -> str_mem c (columns df) = false) ->
  NoDup (map (fun kv => patient_id (snd kv)) agg) ->
  exists out,
    merge_scores df agg = Merged out /\
    Forall2
      (fun (r : row) (m : merged_row) =>
         (forall col, str_eqb col (u "subjid") = false ->
            input_cells m col = r col) /\
         (isna (r (u "subjid")) = false ->
          input_cells m (u "subjid") = Text (py_str (r (u "subjid"))) /\
          ((forall v, In v (map snd agg) ->
              patient_id v <> py_str (r (u "subjid"))) ->
           SYNTAX_score m = None /\ SYNTAX_class m = None /\
           CAD_RADS_grade m = None /\ Gensini_score m = None /\
           Gensini_class m = None) /\
          (forall v, In v (map snd agg) ->
             patient_id v = py_str (r (u "subjid")) ->
             SYNTAX_score m = Some (syntax_score v) /\
             SYNTAX_class m = Some (syntax_class v) /\
             CAD_RADS_grade m = Some (cad_rads_grade v) /\
             Gensini_score m = Some (gensini_score v) /\
             Gensini_class m = Some (gensini_class v))))
      (rows df) out.
Proof.
  intros Hsub Hclash Hnd. unfold merge_scores. rewrite Hsub. cbn [negb].
  assert (Hex : existsb (fun c => str_mem c (columns df)) agg_df_columns
                = false).
  { destruct (existsb (fun c => str_mem c (columns df)) agg_df_columns)
      eqn:E; [| reflexivity].
    apply existsb_exists in E. destruct E as [c [Hin Hc]].
    rewrite (Hclash c Hin) in Hc. discriminate. }
  rewrite Hex. eexists. split; [reflexivity |].
  assert (Hnd' : NoDup (map patient_id (map snd agg))).
  { rewrite map_map. exact Hnd. }
  induction (rows df) as [| r rs IH]; cbn [flat_map]; [constructor |].
  destruct (merge_left_row_single (map snd agg) (subjid_astype_str r) Hnd')
    as (m & Hm & Hcells & Hnone & Hsome).
  rewrite Hm. cbn [app]. constructor; [| exact IH].
  rewrite Hcells. split.
  - intros col Hcol. apply subjid_astype_str_other. exact Hcol.
  - intro Hna. rewrite (subjid_astype_str_subjid r Hna) in Hnone, Hsome.
    cbn [same_key] in Hnone, Hsome.
    split; [apply subjid_astype_str_subjid; exact Hna |]. split.
    + intro Hall. rewrite Hnone; [repeat split |].
      intros v Hin.
      destruct (str_eqb (py_str (r (u "subjid"))) (patient_id v)) eqn:E;
        [| reflexivity].
      apply str_eqb_eq in E. destruct (Hall v Hin). symmetry. exact E.
    + intros v Hin Hk. rewrite (Hsome v Hin); [repeat split |].
      rewrite Hk. apply str_eqb_refl.
Qed.

End Merge.

(** A table of two rows and one score record. *)
Lemma C9_merge_is_left_join_witness :
  let r1 : row := fun col =>
    if str_eqb col (u "subjid") then Text (u "P001") else NaN in
  let r2 : row := fun col =>
    if str_eqb col (u "subjid") then Text (u "P002") else NaN in
  let v := Dialog.mkAggregatedScores (u "P001") (26 # 5) (u "Low") 4
             6 (u "Mild") in
  exists m1 m2,
    Dialog.merge_scores (mkDataFrame [u "subjid"] [r1; r2]) [(u "P001", v)]
    = Dialog.Merged [m1; m2] /\
    Dialog.SYNTAX_score m1 = Some (26 # 5) /\
    Dialog.SYNTAX_score m2 = None.
Proof.
  intros r1 r2 v.
  assert (Hnd : NoDup (map (fun kv => Dialog.patient_id (snd kv))
                         [(u "P001", v)])).
  { constructor; [intros [] | constructor]. }
  assert (Hclash : forall c, In c Dialog.agg_df_columns ->
                             str_mem c [u "subjid"] = false).
  { intros c Hc. cbn in Hc.
    repeat (destruct Hc as [<- | Hc]; [vm_compute; reflexivity |]).
    destruct Hc. }
  destruct (C9_merge_is_left_join
              (mkDataFrame [u "subjid"] [r1; r2]) [(u "P001", v)]
              eq_refl Hclash Hnd) as (out & Hout & Hall).
  assert (Hcomp : Dialog.merge_scores (mkDataFrame [u "subjid"] [r1; r2])
                    [(u "P001", v)]
                  = Dialog.Merged
                      [Dialog.with_scores (Dialog.subjid_astype_str r1) v;
                       Dialog.without_scores (Dialog.subjid_astype_str r2)])
    by reflexivity.
  rewrite Hcomp in Hout. injection Hout as <-.
  inversion Hall as [| x m1 xs ms1 H1 Hrest]; subst.
  inversion Hrest as [| y m2 ys ms2 H2 Hnil]; subst.
  eexists. eexists. split; [exact Hcomp |]. split.
  - destruct H1 as (_ & H1). destruct (H1 eq_refl) as (_ & _ & Hsome).
    apply (Hsome v (or_introl eq_refl) eq_refl).
  - destruct H2 as (_ & H2). destruct (H2 eq_refl) as (_ & Hnone & _).
    apply Hnone. intros v' [<- | []]. vm_compute. discriminate.
Defined.

(** C9 as stated fails on the identifier column.  For a row whose [subjid]
    is the integer 7 the merged row holds the text "7" in [subjid].  And it
    fails on a table without the column [subjid], for which the call gives
    no table at all. *)
Lemma C9_merge_is_left_join_counterexample :
  let r : row := fun col =>
    if str_eqb col (u "subjid") then Int 7 else NaN in
  let v := Dialog.mkAggregatedScores (u "7") (26 # 5) (u "Low") 4
             6 (u "Mild") in
  (exists m,
     Dialog.merge_scores (mkDataFrame [u "subjid"] [r]) [(u "7", v)]
     = Dialog.Merged [m] /\
     r (u "subjid") = Int 7 /\
     Dialog.input_cells m (u "subjid") = Text (u "7") /\
     Dialog.input_cells m (u "subjid") <> r (u "subjid")) /\
  Dialog.merge_scores (mkDataFrame [u "name"] [r]) [(u "7", v)]
  = Dialog.KeyErrorRaised.
Proof.
  intros r v. split; [| reflexivity].
  eexists. split; [reflexivity |].
  split; [reflexivity |]. split; [reflexivity |].
  vm_compute. discriminate.
Qed.

(** ** Further facts on the dictionaries, the records and the columns *)

Lemma str_mem_In (x : str) (xs : list str) :
  str_mem x xs = true <-> In x xs.
Proof.
  unfold str_mem. rewrite existsb_exists. split.
  - intros [y [Hin Heq]]. apply str_eqb_eq in Heq. subst y. exact Hin.
  - intro Hin. exists x. split; [exact Hin | apply str_eqb_refl].
Qed.

Lemma str_mem_not_In (x : str) (xs : list str) :
  str_mem x xs = false <-> ~ In x xs.
Proof.
  rewrite <- str_mem_In. destruct (str_mem x xs); split; intro Hx;
    try reflexivity; try discriminate; try (intro; discriminate).
  exfalso. apply Hx. reflexivity.
Qed.

Lemma dict_set_keys {V : Type} (d : list (str * V)) (k : str) (v : V) :
  (In k (map fst d) /\ map fst (dict_set str_eqb d k v) = map fst d) \/
  (~ In k (map fst d) /\ map fst (dict_set str_eqb d k v) = map fst d ++ [k]).
Proof.
  induction d as [| [k' v'] d IH]; cbn [dict_set map fst].
  - right. split; [intros [] | reflexivity].
  - destruct (str_eqb k k') eqn:E.
    + apply str_eqb_eq in E. subst k'. left. split; [left |]; reflexivity.
    + assert (Hne : k' <> k).
      { intro Heq. subst k'. rewrite str_eqb_refl in E. discriminate. }
      destruct IH as [[Hin Heq] | [Hnin Heq]]; cbn [map fst].
      * left. split; [right; exact Hin | rewrite Heq; reflexivity].
      * right. split; [intros [Hk | Hk]; [exact (Hne Hk) | exact (Hnin Hk)] |].
        rewrite Heq. reflexivity.
Qed.

Lemma dict_set_keys_NoDup {V : Type} (d : list (str * V)) (k : str) (v : V) :
  NoDup (map fst d) -> NoDup (map fst (dict_set str_eqb d k v)).
Proof.
  intro Hnd. destruct (dict_set_keys d k v) as [[_ ->] | [Hnin ->]];
    [exact Hnd |].
  apply NoDup_app; [exact Hnd | constructor; [intros [] | constructor] |].
  intros x Hx [<- | []]. exact (Hnin Hx).
Qed.

Lemma dict_set_values {V : Type} (d : list (str * V)) (k : str) (v x : V) :
  In x (map snd (dict_set str_eqb d k v)) -> x = v \/ In x (map snd d).
Proof.
  induction d as [| [k' v'] d IH]; cbn [dict_set map snd].
  - intros [<- | []]. left. reflexivity.
  - destruct (str_eqb k k'); cbn [map snd In].
    + intros [<- | Hin]; [left; reflexivity | right; right; exact Hin].
    + intros [<- | Hin]; [right; left; reflexivity |].
      destruct (IH Hin) as [-> | Hin']; [left; reflexivity |].
      right. right. exact Hin'.
Qed.

Lemma dict_set_values_NoDup {V : Type} (d : list (str * V)) (k : str)
    (v : V) :
  NoDup (map snd d) -> ~ In v (map snd d) ->
  NoDup (map snd (dict_set str_eqb d k v)).
Proof.
  induction d as [| [k' v'] d IH]; cbn [dict_set map snd]; intros Hnd Hnin.
  - constructor; [intros [] | constructor].
  - inversion Hnd as [| x xs Hv' Hnd']; subst.
    destruct (str_eqb k k'); cbn [map snd].
    + constructor; [| exact Hnd'].
      intro Hin. apply Hnin. right. exact Hin.
    + constructor.
      * intro Hin. destruct (dict_set_values d k v v' Hin) as [-> | Hin'].
        -- apply Hnin. left. reflexivity.
        -- exact (Hv' Hin').
      * apply IH; [exact Hnd' |]. intro Hin. apply Hnin. right. exact Hin.
Qed.

Lemma group_step_keys_NoDup (ls : list Dialog.lesion)
    (d : list (str * Dialog.patient)) :
  NoDup (map fst d) ->
  NoDup (map fst (fold_left Dialog.group_step ls d)).
Proof.
  revert d. induction ls as [| l ls IH]; intros d Hnd; cbn [fold_left];
    [exact Hnd |].
  apply IH. unfold Dialog.group_step.
  destruct (dict_get str_eqb d (Dialog.l_patient_id l));
    apply dict_set_keys_NoDup; exact Hnd.
Qed.


Section DistinctIds.
Context `{Dialog.ScoreCalculator} `{Dialog.UnicodeTitle}.

(** The score records that [aggregate_scores] computes have pairwise
    distinct patient identifiers. *)
Lemma aggregate_scores_distinct_ids (lesions : list Dialog.lesion) :
  NoDup (map (fun kv => Dialog.patient_id (snd kv))
           (Dialog.aggregate_scores lesions)).
Proof.
  unfold Dialog.aggregate_scores. cbv zeta. rewrite map_map.
  erewrite map_ext; [apply (group_step_keys_NoDup lesions []); constructor |].
  intros [pid p]. reflexivity.
Qed.

End DistinctIds.

Section ColumnsOnce.
Context `{UnicodeData}.
Import Converter.

Lemma match_names_best (col col_clean : str) (names : list str)
    (best : option str * Q) (c : str) (q : Q) :
  match_names col col_clean names best = (Some c, q) ->
  c = col \/ fst best = Some c.
Proof.
  revert best. induction names as [| name names IH]; intro best;
    cbn [match_names].
  - intro Hb. right. rewrite Hb. reflexivity.
  - destruct (str_eqb col_clean (strip (lower name))).
    + intro Hb. injection Hb as -> _. left. reflexivity.
    + destruct (contains (strip (lower name)) col_clean
                || contains col_clean (strip (lower name))).
      * intro Hb. destruct (IH _ Hb) as [-> | Hbest];
          [left; reflexivity |].
        destruct (Qltb (snd best)
                    (containment_score (strip (lower name)) col_clean));
          cbn [fst] in Hbest.
        -- injection Hbest as ->. left. reflexivity.
        -- right. exact Hbest.
      * apply IH.
Qed.

Lemma match_columns_best (column_mapping : list (str * str))
    (names cols : list str) (best : option str * Q) (c : str) (q : Q) :
  fold_left (match_column column_mapping names) cols best = (Some c, q) ->
  fst best = Some c \/ ~ In c (map snd column_mapping).
Proof.
  revert best. induction cols as [| col cols IH]; intro best;
    cbn [fold_left].
  - intro Hb. left. rewrite Hb. reflexivity.
  - intro Hb. destruct (IH _ Hb) as [Hbest | Hnin]; [| right; exact Hnin].
    unfold match_column in Hbest.
    destruct (str_mem col (map snd column_mapping)) eqn:Emem;
      [left; exact Hbest |].
    destruct (match_names col (strip (lower col)) names best)
      as [b sc] eqn:Enames.
    cbn [fst] in Hbest. subst b.
    destruct (match_names_best _ _ _ _ _ _ Enames) as [-> | Hbest'].
    + right. apply str_mem_not_In. exact Emem.
    + left. exact Hbest'.
Qed.

(** Each input column is taken by one standard field at most. *)
Lemma analyze_columns_distinct (df_columns : list str) :
  NoDup (map snd (analyze_columns df_columns)).
Proof.
  unfold analyze_columns.
  assert (Hfold : forall fields (m : list (str * str)),
            NoDup (map snd m) ->
            NoDup (map snd (fold_left (field_step (map strip df_columns))
                              fields m))).
  { induction fields as [| [field names] fields IH]; intros m Hnd;
      cbn [fold_left]; [exact Hnd |].
    apply IH. unfold field_step.
    destruct (fold_left (match_column m names) (map strip df_columns)
                (None, 0)) as [[c |] q] eqn:Ebest; [| exact Hnd].
    destruct (negb (is_empty c) && Qltb 50 q); [| exact Hnd].
    apply dict_set_values_NoDup; [exact Hnd |].
    destruct (match_columns_best _ _ _ _ _ _ Ebest) as [Hbest | Hnin];
      [discriminate | exact Hnin]. }
  apply Hfold. constructor.
Qed.

End ColumnsOnce.

(** The grade of the dictionary calculator never falls as the stenosis
    grows. *)
Lemma cad_rads_grade_of_monotone (s1 s2 : Q) :
  0 <= s1 -> s1 <= s2 ->
  (CoronaryScoreCalculator.cad_rads_grade_of s1
   <= CoronaryScoreCalculator.cad_rads_grade_of s2)%Z.
Proof.
  intros H0 Hle. unfold CoronaryScoreCalculator.cad_rads_grade_of.
  destruct (Qeqb s1 0) eqn:E0; qprop.
  { destruct (Qeqb s2 0); [lia |].
    destruct (Qleb s2 24); [lia |]. destruct (Qleb s2 49); [lia |].
    destruct (Qleb s2 69); [lia |]. destruct (Qleb s2 99); lia. }
  assert (Hs2 : Qeqb s2 0 = false) by (apply Qeqb_false; lra).
  rewrite Hs2.
  destruct (Qleb s1 24) eqn:E1; qprop.
  { destruct (Qleb s2 24); [lia |]. destruct (Qleb s2 49); [lia |].
    destruct (Qleb s2 69); [lia |]. destruct (Qleb s2 99); lia. }
  destruct (Qleb s1 49) eqn:E2; qprop; [qdecide |].
  { destruct (Qleb s2 49); [lia |].
    destruct (Qleb s2 69); [lia |]. destruct (Qleb s2 99); lia. }
  destruct (Qleb s1 69) eqn:E3; qprop; [qdecide |].
  { destruct (Qleb s2 69); [lia |]. destruct (Qleb s2 99); lia. }
  destruct (Qleb s1 99) eqn:E4; qprop; qdecide;
    [destruct (Qleb s2 99); lia | lia].
Qed.

(** ** First maximum *)

Lemma py_max_from_spec (xs : list Q) (best : Q) :
  In (py_max_from best xs) (best :: xs) /\
  best <= py_max_from best xs /\
  (forall x, In x xs -> x <= py_max_from best xs).
Proof.
  revert best. induction xs as [| x xs IH]; intro best; cbn [py_max_from].
  - split; [left; reflexivity |]. split; [lra | intros x []].
  - destruct (IH (if Qltb best x then x else best)) as (Hin & Hge & Hall).
    destruct (Qltb best x) eqn:E; qprop.
    + split; [right; exact Hin |]. split; [lra |].
      intros y [<- | Hy]; [exact Hge | apply Hall; exact Hy].
    + split.
      * destruct Hin as [Hb | Hin]; [left; exact Hb | right; right; exact Hin].
      * split; [exact Hge |].
        intros y [<- | Hy]; [lra | apply Hall; exact Hy].
Qed.

Lemma py_max_spec (xs : list Q) (m : Q) :
  py_max xs = Some m -> In m xs /\ forall x, In x xs -> x <= m.
Proof.
  destruct xs as [| x xs]; cbn [py_max]; [discriminate |].
  intro Hm. injection Hm as <-.
  destruct (py_max_from_spec xs x) as (Hin & Hge & Hall).
  split; [exact Hin |].
  intros y [<- | Hy]; [exact Hge | apply Hall; exact Hy].
Qed.

(** ** Dictionary calculator: the grade of the largest stenosis *)

Lemma cad_rads_loop (ls : list CoronaryScoreCalculator.lesion)
    (g : Z) (m : Q) (d : list (str * Z)) :
  0 <= m ->
  g = CoronaryScoreCalculator.cad_rads_grade_of m ->
  (forall l, In l ls -> 0 <= CoronaryScoreCalculator.stenosis_percent l) ->
  let '(g', m', _) :=
    fold_left CoronaryScoreCalculator.cad_rads_step ls (g, m, d) in
  g' = CoronaryScoreCalculator.cad_rads_grade_of m' /\ m <= m' /\
  (forall l, In l ls -> CoronaryScoreCalculator.stenosis_percent l <= m').
Proof.
  revert g m d. induction ls as [| l ls IH]; intros g m d Hm Hg Hall.
  - cbn. split; [exact Hg |]. split; [lra | intros l []].
  - cbn [fold_left]. unfold CoronaryScoreCalculator.cad_rads_step at 2.
    set (s := CoronaryScoreCalculator.stenosis_percent l).
    assert (Hs : 0 <= s) by (apply Hall; left; reflexivity).
    match goal with
    | |- context [fold_left _ ls (?g1, ?m1, ?d1)] =>
        specialize (IH g1 m1 d1);
        destruct (fold_left CoronaryScoreCalculator.cad_rads_step ls
                    (g1, m1, d1)) as [[g' m'] d']
    end.
    destruct (Qltb m s) eqn:E; qprop.
    + destruct IH as (Hg' & Hle & Hall'); [exact Hs | |
        intros l' Hin; apply Hall; right; exact Hin |].
      * subst g.
        pose proof (cad_rads_grade_of_monotone m s Hm (Qlt_le_weak _ _ E)).
        lia.
      * split; [exact Hg' |]. split; [lra |].
        intros l' [<- | Hin]; [exact Hle | apply Hall'; exact Hin].
    + destruct IH as (Hg' & Hle & Hall'); [exact Hm | |
        intros l' Hin; apply Hall; right; exact Hin |].
      * subst g.
        pose proof (cad_rads_grade_of_monotone s m Hs E). lia.
      * split; [exact Hg' |]. split; [exact Hle |].
        intros l' [<- | Hin]; [fold s; lra | apply Hall'; exact Hin].
Qed.

(** X13.  When no stenosis is negative, the grade that
    [calculate_cad_rads_grade] returns is the grade of the maximal stenosis
    it returns, and that maximum is at least the stenosis of every
    lesion. *)
Theorem sheet_grade_of_max_stenosis (ls : list CoronaryScoreCalculator.lesion) :
  (forall l, In l ls -> 0 <= CoronaryScoreCalculator.stenosis_percent l) ->
  CoronaryScoreCalculator.grade
    (CoronaryScoreCalculator.calculate_cad_rads_grade ls)
  = CoronaryScoreCalculator.cad_rads_grade_of
      (CoronaryScoreCalculator.max_stenosis
         (CoronaryScoreCalculator.calculate_cad_rads_grade ls)) /\
  (forall l, In l ls ->
     CoronaryScoreCalculator.stenosis_percent l
     <= CoronaryScoreCalculator.max_stenosis
          (CoronaryScoreCalculator.calculate_cad_rads_grade ls)).
Proof.
  intro Hall. unfold CoronaryScoreCalculator.calculate_cad_rads_grade.
  assert (H0 : 0 <= 0) by lra.
  pose proof (cad_rads_loop ls 0%Z 0 [] H0 eq_refl Hall) as Hloop.
  destruct (fold_left CoronaryScoreCalculator.cad_rads_step ls (0%Z, 0, []))
    as [[g' m'] d'].
  destruct Hloop as (Hg & _ & Hmax).
  cbn [CoronaryScoreCalculator.grade CoronaryScoreCalculator.max_stenosis].
  split; [exact Hg | exact Hmax].
Qed.

Lemma sheet_grade_of_max_stenosis_witness :
  CoronaryScoreCalculator.grade
    (CoronaryScoreCalculator.calculate_cad_rads_grade
       [plain_dict (u "LAD") (u "mid") 30; plain_dict (u "RCA") (u "mid") 75])
  = 4%Z.
Proof.
  assert (Hall : forall l,
            In l [plain_dict (u "LAD") (u "mid") 30;
                  plain_dict (u "RCA") (u "mid") 75] ->
            0 <= CoronaryScoreCalculator.stenosis_percent l).
  { intros l [<- | [<- | []]]; unfold Qle; cbn; lia. }
  rewrite (proj1 (sheet_grade_of_max_stenosis _ Hall)). reflexivity.
Defined.

(** ** Reports: prognosis *)

Section Reports.
Import Patient.

Lemma prognostic_factors_count (p : PatientData) :
  (List.length (GensiniReport.prognostic_factors p) <= 3)%nat.
Proof.
  unfold GensiniReport.prognostic_factors.
  repeat match goal with
  | |- context [if ?b then _ else _] => destruct b
  end; cbn; lia.
Qed.

(** X15.  The five-year survival that the Gensini prognosis estimates lies
    between 65 and 95 percent: with three prognostic factors at most, the
    floor of 50 percent never comes into play. *)
Theorem prognosis_survival_range (score : Q) (p : PatientData) :
  (65 <= GensiniReport.five_year_survival
           (GensiniReport._assess_prognosis score p) <= 95)%Z.
Proof.
  unfold GensiniReport._assess_prognosis.
  cbn [GensiniReport.five_year_survival].
  pose proof (prognostic_factors_count p) as Hn.
  unfold GensiniReport._estimate_survival.
  destruct (Qgtb score 80); [lia |].
  destruct (Qgtb score 40); [lia |].
  destruct (Qgtb score 20); lia.
Qed.


Lemma base_risk_of_severity (score : Q) :
  GensiniReport.base_risk score
  = risk_of_severity (GensiniCalculator._get_severity_grade score).
Proof.
  unfold GensiniReport.base_risk, GensiniCalculator._get_severity_grade.
  destruct (Qeqb score 0) eqn:E0; qprop.
  - qdecide. reflexivity.
  - destruct (Qleb score 20) eqn:E1; qprop; [qdecide |].
    { destruct (Qgtb score 0); reflexivity. }
    destruct (Qleb score 40) eqn:E2; qprop; [qdecide; reflexivity |].
    destruct (Qleb score 80) eqn:E3; qprop; qdecide; reflexivity.
Qed.

(** X16.  The risk level that [_assess_cardiovascular_risk] derives from a
    Gensini score goes with the severity grade that [_get_severity_grade]
    gives the same score, whatever the score and the patient: low for
    normal and mild, moderate for moderate, high for severe, very high for
    critical. *)
Theorem report_risk_matches_severity (score : Q) (p : PatientData) :
  GensiniReport.risk_level (GensiniReport._assess_cardiovascular_risk score p)
  = risk_of_severity (GensiniCalculator._get_severity_grade score).
Proof. exact (base_risk_of_severity score). Qed.

End Reports.

(** ** Validation *)

Section ValidationFacts.
Import Patient Validation.

Lemma lesion_errors_from_nil (ls : list Lesion) (i : nat) :
  lesion_errors_from i ls = [] <->
  forall l, In l ls -> validate_lesion_data l = [].
Proof.
  revert i. induction ls as [| l ls IH]; intro i; cbn [lesion_errors_from].
  - split; [intros _ l [] | reflexivity].
  - split.
    + intro Hnil. apply app_eq_nil in Hnil. destruct Hnil as [Hl Hrest].
      intros l' [<- | Hin].
      * destruct (validate_lesion_data l); [reflexivity | discriminate].
      * apply (proj1 (IH (S i)) Hrest). exact Hin.
    + intro Hall. rewrite (Hall l (or_introl eq_refl)). cbn [map app].
      apply IH. intros l' Hin. apply Hall. right. exact Hin.
Qed.

Lemma validate_lesion_ok (l : Lesion) :
  validate_lesion_data l = [] ->
  valid_stenosis (stenosis_percent l) /\
  (is_cto l = true -> 99 <= stenosis_percent l) /\
  (thrombus_present l = true -> 70 <= stenosis_percent l) /\
  (forall len, length_mm l = Some len -> 0 <= len /\ len <= 200).
Proof.
  unfold validate_lesion_data, valid_stenosis. intro Hnil.
  apply app_eq_nil in Hnil. destruct Hnil as [Hs Hnil].
  apply app_eq_nil in Hnil. destruct Hnil as [Hlen Hnil].
  apply app_eq_nil in Hnil. destruct Hnil as [Hcto Hthr].
  repeat split.
  - destruct (Qltb (stenosis_percent l) 0) eqn:E; [discriminate |].
    qprop. exact E.
  - destruct (Qltb (stenosis_percent l) 0); [discriminate |].
    destruct (Qgtb (stenosis_percent l) 100) eqn:E; [discriminate |].
    qprop. exact E.
  - intro Hc. rewrite Hc in Hcto.
    destruct (Qltb (stenosis_percent l) 99) eqn:E; [discriminate |].
    qprop. exact E.
  - intro Ht. rewrite Ht in Hthr.
    destruct (Qltb (stenosis_percent l) 70) eqn:E; [discriminate |].
    qprop. exact E.
  - rewrite H in Hlen. destruct (Qltb len 0) eqn:E; [discriminate |].
    qprop. exact E.
  - rewrite H in Hlen. destruct (Qltb len 0); [discriminate |].
    destruct (Qgtb len 200) eqn:E; [discriminate |]. qprop. exact E.
Qed.

(** X17.  A patient that [validate_patient_data] accepts has at least one
    lesion, an age between 0 and 150, and only lesions with a stenosis
    between 0 and 100 percent, of which the chronic total occlusions have
    99 percent or more (so that their SYNTAX stenosis factor is 5 and their
    Gensini stenosis score 16 or 32) and those with a thrombus 70 percent
    or more.  A patient without lesion is rejected. *)
Theorem validated_patient (p : PatientData) :
  fst (validate_patient_data p) = true ->
  lesions p <> [] /\
  (0 <= age p <= 150)%Z /\
  (forall l, In l (lesions p) ->
     valid_stenosis (stenosis_percent l) /\
     (is_cto l = true ->
        99 <= stenosis_percent l /\
        SyntaxCalculator.stenosis_factor l = 5 /\
        (16 <= GensiniCalculator._get_stenosis_score (stenosis_percent l))%Z) /\
     (thrombus_present l = true -> 70 <= stenosis_percent l)).
Proof.
  unfold validate_patient_data. cbn [fst]. intro Hok.
  assert (Hnil : patient_errors p = []).
  { destruct (patient_errors p); [reflexivity | discriminate]. }
  clear Hok. unfold patient_errors in Hnil.
  apply app_eq_nil in Hnil. destruct Hnil as [Hage Hnil].
  apply app_eq_nil in Hnil. destruct Hnil as [_ Hnil].
  apply app_eq_nil in Hnil. destruct Hnil as [_ Hles].
  split; [| split].
  - destruct (lesions p); [discriminate | discriminate].
  - destruct (age p <? 0)%Z eqn:E1; [discriminate |].
    destruct (age p >? 150)%Z eqn:E2; [discriminate |].
    apply Z.ltb_ge in E1. rewrite Z.gtb_ltb in E2. apply Z.ltb_ge in E2. lia.
  - intros l Hin.
    assert (Hl : validate_lesion_data l = []).
    { destruct (lesions p) as [| l0 ls] eqn:El; [destruct Hin |].
      apply (proj1 (lesion_errors_from_nil (l0 :: ls) 0) Hles). exact Hin. }
    destruct (validate_lesion_ok l Hl) as ([H0 H100] & Hcto & Hthr & _).
    split; [split; assumption |]. split; [| exact Hthr].
    intro Hc. specialize (Hcto Hc). split; [exact Hcto |]. split.
    + unfold SyntaxCalculator.stenosis_factor.
      rewrite (proj2 (Qgeb_true _ _) Hcto). reflexivity.
    + rewrite get_stenosis_score_unfold.
      destruct (Qleb (stenosis_percent l) 99) eqn:E; qprop; qdecide;
        cbn; lia.
Qed.

Lemma validated_patient_witness :
  lesions (plain_patient
             [mkLesion (Plain RCA) None 100 (Plain PROXIMAL) None
                false false false false true false]) <> [] /\
  SyntaxCalculator.stenosis_factor
    (mkLesion (Plain RCA) None 100 (Plain PROXIMAL) None
       false false false false true false)
  = 5.
Proof.
  destruct (validated_patient
              (plain_patient
                 [mkLesion (Plain RCA) None 100 (Plain PROXIMAL) None
                    false false false false true false]) eq_refl)
    as (Hne & _ & Hall).
  split; [exact Hne |].
  destruct (Hall _ (or_introl eq_refl)) as (_ & Hcto & _).
  destruct (Hcto eq_refl) as (_ & Hf & _). exact Hf.
Defined.

End ValidationFacts.

(** ** Segments *)

Section Segments.
Import Patient VesselSegmentTable.

(** X18.  The segment table and the Gensini weight table agree: they know
    the same segment ids, 1 to 16, the multiplication factor of a segment is
    its Gensini weight, and a segment is filed under its own id. *)
Theorem segment_tables_agree (id : Z) :
  option_map multiplication_factor (get_segment_by_id id)
  = dict_get Z.eqb VesselSegments.GENSINI_WEIGHTS id /\
  option_map segment_id (get_segment_by_id id)
  = (if (1 <=? id)%Z && (id <=? 16)%Z then Some id else None).
Proof.
  destruct (Z.leb_spec 1 id) as [H1 | H1];
    [destruct (Z.leb_spec id 16) as [H16 | H16] |].
  - assert (Hcases : In id [1; 2; 3; 4; 5; 6; 7; 8; 9; 10; 11; 12; 13; 14;
                            15; 16]%Z) by (cbn; lia).
    cbn [In] in Hcases.
    repeat (destruct Hcases as [<- | Hcases]; [split; reflexivity |]).
    contradiction.
  - unfold get_segment_by_id.
    cbv [VESSEL_SEGMENTS VesselSegments.GENSINI_WEIGHTS dict_get].
    zdecide. split; reflexivity.
  - unfold get_segment_by_id.
    cbv [VESSEL_SEGMENTS VesselSegments.GENSINI_WEIGHTS dict_get].
    zdecide. split; reflexivity.
Qed.

(** X19.  The segment that the SYNTAX calculator infers for a lesion
    without segment id.  For LAD, LCX and RCA it reads [location.value] and
    raises [AttributeError].  For the other vessels it returns a segment of
    the table, which is a segment of the lesion's own vessel for the left
    main only: for OM, D, PDA and PLV it is segment 1, the proximal right
    coronary artery. *)
Theorem inferred_segment_vessel (l : Lesion) :
  truthy_Z (Patient.segment_id l) = false ->
  (SyntaxCalculator._get_segment_id l = Raise AttributeError <->
   located_vessel (as_member (vessel l)) = true) /\
  (forall id, SyntaxCalculator._get_segment_id l = Ok id ->
     exists seg,
       get_segment_by_id id = Some seg /\
       (vessel_type seg = vessel l <-> as_member (vessel l) = LM) /\
       (as_member (vessel l) <> LM ->
        id = 1%Z /\ vessel_type seg = Plain RCA)).
Proof.
  intro Ht. unfold SyntaxCalculator._get_segment_id. rewrite Ht.
  destruct (vessel l) as [v].
  destruct v; cbn [as_member located_vessel SyntaxCalculator.vessel_mapping
                   bind value];
    (split; [split; first [reflexivity | discriminate] |]);
    intros id Hid; try discriminate; injection Hid as <-;
    eexists; (split; [reflexivity |]); cbn;
    (split; [split; intro; first [reflexivity | discriminate] |]);
    intro Hne; first [congruence | split; reflexivity].
Qed.

Lemma inferred_segment_vessel_witness :
  SyntaxCalculator._get_segment_id (plain_lesion OM 60 MID) = Ok 1%Z /\
  exists seg,
    get_segment_by_id 1 = Some seg /\ vessel_type seg = Plain RCA.
Proof.
  split; [reflexivity |].
  destruct (inferred_segment_vessel (plain_lesion OM 60 MID) eq_refl)
    as (_ & Hok).
  destruct (Hok 1%Z eq_refl) as (seg & Hget & _ & Hrca).
  exists seg. split; [exact Hget |].
  apply Hrca. discriminate.
Defined.

End Segments.

(** ** Numbers read from a text *)

Section NumbersOfText.
Context `{UnicodeData}.
Import Dialog.

Lemma float_from_nonneg (n : str) (int_part : Q) (scale : option Q) :
  0 <= int_part ->
  (forall sc, scale = Some sc -> 0 <= sc) ->
  0 <= float_from int_part scale n.
Proof.
  revert int_part scale.
  induction n as [| c n IH]; intros int_part scale Hint Hscale;
    cbn [float_from]; [exact Hint |].
  destruct (decimal c) as [d |].
  - assert (Hd : 0 <= inject_Z (Z.of_N d)).
    { change 0 with (inject_Z 0). rewrite <- Zle_Qle. lia. }
    destruct scale as [sc |].
    + pose proof (Hscale sc eq_refl) as Hsc.
      apply IH.
      * assert (0 <= inject_Z (Z.of_N d) * sc)
          by (apply Qmult_le_0_compat; assumption).
        lra.
      * intros sc' Heq. injection Heq as <-.
        apply Qle_shift_div_l; [reflexivity | lra].
    + apply IH; [lra | intros sc Heq; discriminate].
  - apply IH; [exact Hint |].
    intros sc Heq. injection Heq as <-. unfold Qle. cbn. lia.
Qed.

Lemma float_of_nonneg (n : str) : 0 <= float_of n.
Proof.
  unfold float_of. rewrite Qred_correct.
  apply float_from_nonneg; [lra | intros sc Heq; discriminate].
Qed.

Lemma py_max_floats_nonneg (ns : list str) (m : Q) :
  py_max (map float_of ns) = Some m -> 0 <= m.
Proof.
  intro Hm. destruct (py_max_spec _ _ Hm) as [Hin _].
  apply in_map_iff in Hin. destruct Hin as [n [<- _]].
  apply float_of_nonneg.
Qed.

Lemma extract_nonneg (text : cell) (use_range_upper : bool)
    (v : Q) :
  extract_stenosis_percent text use_range_upper = Some v -> 0 <= v.
Proof.
  unfold extract_stenosis_percent. intro Hv.
  repeat match type of Hv with
  | context [if ?b then _ else _] =>
      destruct b;
      [first [ discriminate Hv
             | injection Hv as <-; unfold Qle; cbn; lia
             | exact (py_max_floats_nonneg _ _ Hv) ] |]
  | context [match ?ns with [] => _ | _ :: _ => _ end] =>
      destruct ns; [discriminate Hv |]
  end.
  exact (py_max_floats_nonneg _ _ Hv).
Qed.

(** X21.  The stenosis that [extract_stenosis_percent] of the dialog script
    reads from a cell is never negative. *)
Theorem extracted_stenosis_nonneg (text : cell) (use_range_upper : bool)
    (v : Q) :
  extract_stenosis_percent text use_range_upper = Some v -> 0 <= v.
Proof. exact (extract_nonneg text use_range_upper v). Qed.

Lemma contains_nonempty (k s : str) :
  k <> [] -> contains k s = true -> is_empty s = false.
Proof.
  intros Hk Hc. destruct s as [| c s]; [| reflexivity].
  destruct k as [| x k]; [congruence |]. cbn in Hc. discriminate.
Qed.

Lemma contains_any_incl (ks ks' : list str) (s : str) :
  incl ks ks' -> contains_any ks s = true -> contains_any ks' s = true.
Proof.
  unfold contains_any. intros Hincl Hany.
  apply existsb_exists in Hany. destruct Hany as [k [Hin Hk]].
  apply existsb_exists. exists k. split; [apply Hincl; exact Hin | exact Hk].
Qed.

(** X22.  A negative marker wins over everything else: a text that, once
    stripped, holds "无狭窄", "正常" or "未见狭窄" has the value 0, whatever
    numbers, occlusion markers or adjectives it also holds. *)
Theorem negative_marker_gives_zero (text : cell) (use_range_upper : bool) :
  isna text = false ->
  contains_any [u "无狭窄"; u "正常"; u "未见狭窄"] (strip (py_str text))
  = true ->
  extract_stenosis_percent text use_range_upper = Some 0.
Proof.
  intros Hna Hneg. unfold extract_stenosis_percent. rewrite Hna.
  assert (Hne : is_empty (strip (py_str text)) = false).
  { unfold contains_any in Hneg. apply existsb_exists in Hneg.
    destruct Hneg as [k [Hin Hk]].
    apply (contains_nonempty k); [| exact Hk].
    destruct Hin as [<- | [<- | [<- | []]]]; vm_compute; discriminate. }
  assert (Hkw : contains_any STENOSIS_KEYWORDS (strip (py_str text)) = true).
  { apply (contains_any_incl [u "无狭窄"; u "正常"; u "未见狭窄"]);
      [| exact Hneg].
    intros k [<- | [<- | [<- | []]]]; unfold STENOSIS_KEYWORDS;
      cbn [In]; repeat (first [left; reflexivity | right]). }
  rewrite Hne, Hkw, Hneg. rewrite andb_false_r. reflexivity.
Qed.

(** X23.  [normalize_gender] answers "male" for a missing value, and
    otherwise "male" or a value of the mapping; with the default mapping
    the answer is "male" or "female". *)
Theorem normalize_gender_range (value : cell) (stsex_map : list (str * str)) :
  (isna value = true -> normalize_gender value stsex_map = u "male") /\
  In (normalize_gender value stsex_map) (u "male" :: map snd stsex_map) /\
  (normalize_gender value DEFAULT_STSEX_MAP = u "male" \/
   normalize_gender value DEFAULT_STSEX_MAP = u "female").
Proof.
  assert (Hget : forall (m : list (str * str)) k,
            In (dict_get_default str_eqb m k (u "male"))
              (u "male" :: map snd m)).
  { intros m k. unfold dict_get_default.
    induction m as [| [k' v'] m IH]; cbn [dict_get map snd].
    - left. reflexivity.
    - destruct (str_eqb k k'); [right; left; reflexivity |].
      destruct IH as [Hd | Hin]; [left; exact Hd | right; right; exact Hin]. }
  unfold normalize_gender. split; [intros ->; reflexivity |]. split.
  - destruct (isna value); [left; reflexivity | apply Hget].
  - destruct (isna value); [left; reflexivity |].
    pose proof (Hget DEFAULT_STSEX_MAP
                  (lower (strip (py_str value)))) as Hin.
    cbn [DEFAULT_STSEX_MAP map snd In] in Hin.
    repeat (destruct Hin as [Hin | Hin];
            [first [left; symmetry; exact Hin
                   | right; symmetry; exact Hin] |]).
    destruct Hin.
Qed.

End NumbersOfText.

Lemma extracted_stenosis_nonneg_witness :
  @Dialog.extract_stenosis_percent ascii_tables
    (Text (u "狭窄60-70.5%")) true = Some (141 # 2) /\
  0 <= 141 # 2.
Proof.
  split; [reflexivity |].
  exact (@extracted_stenosis_nonneg ascii_tables
           (Text (u "狭窄60-70.5%")) true (141 # 2) eq_refl).
Defined.

Lemma negative_marker_gives_zero_witness :
  @Dialog.extract_stenosis_percent ascii_tables
    (Text (u "原90%狭窄，支架术后未见狭窄")) true = Some 0.
Proof.
  exact (@negative_marker_gives_zero ascii_tables
           (Text (u "原90%狭窄，支架术后未见狭窄")) true eq_refl eq_refl).
Defined.

(** ** The records of the patients *)

Section RowsToScores.
Context `{Dialog.ScoreCalculator} `{Dialog.UnicodeTitle}.
Import Dialog.

Lemma dict_set_keys_In {V : Type} (d : list (str * V)) (k : str) (v : V)
    (pid : str) :
  In pid (map fst (dict_set str_eqb d k v)) <->
  In pid (map fst d) \/ k = pid.
Proof.
  destruct (dict_set_keys d k v) as [[Hin ->] | [Hnin ->]].
  - split; [intro Hd; left; exact Hd |].
    intros [Hd | <-]; [exact Hd | exact Hin].
  - rewrite in_app_iff. cbn [In]. tauto.
Qed.

Lemma group_step_keys (ls : list lesion) (d : list (str * patient))
    (pid : str) :
  In pid (map fst (fold_left group_step ls d)) <->
  In pid (map fst d) \/ exists l, In l ls /\ l_patient_id l = pid.
Proof.
  revert d. induction ls as [| l ls IH]; intro d; cbn [fold_left].
  - split; [intro Hin; left; exact Hin |].
    intros [Hin | [l [[] _]]]. exact Hin.
  - rewrite IH.
    assert (Hstep : In pid (map fst (group_step d l)) <->
                    In pid (map fst d) \/ l_patient_id l = pid).
    { unfold group_step.
      destruct (dict_get str_eqb d (l_patient_id l));
        apply dict_set_keys_In. }
    rewrite Hstep. split.
    + intros [[Hd | Hk] | [l' [Hin Hk]]].
      * left. exact Hd.
      * right. exists l. split; [left; reflexivity | exact Hk].
      * right. exists l'. split; [right; exact Hin | exact Hk].
    + intros [Hd | [l' [[<- | Hin] Hk]]].
      * left. left. exact Hd.
      * left. right. exact Hk.
      * right. exists l'. split; [exact Hin | exact Hk].
Qed.

Lemma aggregate_scores_keys (ls : list lesion) :
  map fst (aggregate_scores ls) = map fst (fold_left group_step ls []).
Proof.
  unfold aggregate_scores. cbv zeta. rewrite map_map.
  apply map_ext. intros [pid p]. reflexivity.
Qed.

Lemma aggregate_scores_record (ls : list lesion) (pid : str)
    (v : AggregatedScores) :
  In (pid, v) (aggregate_scores ls) -> patient_id v = pid.
Proof.
  unfold aggregate_scores. cbv zeta. intro Hin.
  apply in_map_iff in Hin. destruct Hin as [[pid' p] [Heq _]].
  injection Heq as <- <-. reflexivity.
Qed.

Lemma aggregate_scores_by_patient (ls : list lesion) :
  NoDup (map fst (aggregate_scores ls)) /\
  (forall pid, In pid (map fst (aggregate_scores ls)) <->
               exists l, In l ls /\ l_patient_id l = pid) /\
  (forall pid v, In (pid, v) (aggregate_scores ls) -> patient_id v = pid).
Proof.
  split; [| split].
  - rewrite aggregate_scores_keys.
    apply group_step_keys_NoDup. constructor.
  - intro pid. rewrite aggregate_scores_keys, group_step_keys.
    cbn [map In]. tauto.
  - apply aggregate_scores_record.
Qed.

(** X24.  [aggregate_scores] returns one record for each patient
    identifier that occurs among the lesions and no other: the keys are
    pairwise distinct, a key is there exactly when a lesion carries it, and
    each record holds its key as patient identifier. *)
Theorem aggregate_scores_patients (ls : list lesion) :
  NoDup (map fst (aggregate_scores ls)) /\
  (forall pid, In pid (map fst (aggregate_scores ls)) <->
               exists l, In l ls /\ l_patient_id l = pid) /\
  (forall pid v, In (pid, v) (aggregate_scores ls) -> patient_id v = pid).
Proof. exact (aggregate_scores_by_patient ls). Qed.


End RowsToScores.

(** ** The converter's normalisation of the values *)

Section ConverterValueLaws.
Context `{UnicodeData} `{UnicodeUpper}.
Import ConverterValues.

Lemma first_standard_in (test : str -> bool)
    (table : list (str * list str)) (name : str) :
  first_standard test table = Some name -> In name (map fst table).
Proof.
  induction table as [| [standard variants] table IH]; cbn [first_standard];
    [discriminate |].
  destruct (existsb test variants).
  - intro Heq. injection Heq as <-. left. reflexivity.
  - intro Heq. right. apply IH. exact Heq.
Qed.

(** X27.  The three normalisations return names of the patient model,
    whatever the cell holds: [standardize_vessel_name] one of the eight
    vessels, [standardize_location] one of the three locations and
    [standardize_gender] one of the two genders. *)
Theorem standardized_names (v : cell) :
  In (standardize_vessel_name v)
     [u "LM"; u "LAD"; u "LCX"; u "RCA"; u "OM"; u "D"; u "PDA"; u "PLV"] /\
  In (standardize_location v) [u "proximal"; u "mid"; u "distal"] /\
  In (standardize_gender v) [u "male"; u "female"].
Proof.
  split; [| split].
  - unfold standardize_vessel_name.
    destruct (isna v); [right; left; reflexivity |]. cbv zeta.
    match goal with
    | |- context [first_standard ?t ?tb] =>
        destruct (first_standard t tb) as [name |] eqn:E
    end.
    + exact (first_standard_in _ _ _ E).
    + repeat match goal with
        | |- context [if ?b then _ else _] => destruct b
        end; cbn [In]; auto 10.
  - unfold standardize_location.
    destruct (isna v); [left; reflexivity |]. cbv zeta.
    match goal with
    | |- context [first_standard ?t ?tb] =>
        destruct (first_standard t tb) as [name |] eqn:E
    end.
    + exact (first_standard_in _ _ _ E).
    + left. reflexivity.
  - unfold standardize_gender.
    destruct (isna v); [left; reflexivity |]. cbv zeta.
    match goal with
    | |- context [first_standard ?t ?tb] =>
        destruct (first_standard t tb) as [name |] eqn:E
    end.
    + exact (first_standard_in _ _ _ E).
    + left. reflexivity.
Qed.

(** X28.  In [standardize_gender] the variants of "male" are tried first,
    and a variant only has to occur in the text.  So every text in which
    one of 男, M, m or 1 occurs is read as male; the text "female" is one of
    them. *)
Theorem text_with_male_variant (v : cell) :
  isna v = false ->
  contains_any [u "男"; u "M"; u "m"; u "1"] (strip (py_str v)) = true ->
  standardize_gender v = u "male".
Proof.
  intros Hna Hany. unfold standardize_gender. rewrite Hna. cbv zeta.
  unfold gender_standardization. cbn [first_standard].
  match goal with
  | |- context [existsb ?t ?vs] =>
      assert (Hex : existsb t vs = true)
  end.
  { apply existsb_exists. unfold contains_any in Hany.
    apply existsb_exists in Hany. destruct Hany as [k [Hin Hk]].
    exists k. split.
    - cbn [In] in Hin |- *. tauto.
    - rewrite Hk. reflexivity. }
  rewrite Hex. reflexivity.
Qed.

(** X29.  The stenosis that the converter reads from a cell always lies
    between 0 and 100. *)
Theorem converter_stenosis_range (v : cell) :
  0 <= extract_stenosis_percent v /\ extract_stenosis_percent v <= 100.
Proof.
  unfold extract_stenosis_percent.
  destruct (isna v); [split; lra |]. cbv zeta.
  destruct (Dialog.findall_numbers (strip (py_str v))) as [| n ns].
  - repeat match goal with
      | |- context [if ?b then _ else _] => destruct b
      end; split; lra.
  - pose proof (float_of_nonneg n) as Hn.
    destruct (Qgtb (Dialog.float_of n) 1) eqn:E1.
    + destruct (Qltb 100 (Dialog.float_of n)) eqn:E2; qprop; split; lra.
    + qprop. split; lra.
Qed.

End ConverterValueLaws.

(** The text "female" holds the variant m of "male". *)
Lemma text_with_male_variant_witness :
  ConverterValues.standardize_gender (Text (u "female")) = u "male".
Proof.
  exact (text_with_male_variant (Text (u "female")) eq_refl eq_refl).
Defined.

(** ** What [analyze_columns] maps *)

Section MappedColumns.
Context `{UnicodeData}.
Import Converter.

Lemma dict_set_entries {V : Type} (d : list (str * V)) (k : str) (v : V)
    (a : str) (b : V) :
  In (a, b) (dict_set str_eqb d k v) -> In (a, b) d \/ (a = k /\ b = v).
Proof.
  induction d as [| [k' v'] d IH]; cbn [dict_set].
  - intros [Heq | []]. injection Heq as <- <-. right. split; reflexivity.
  - destruct (str_eqb k k') eqn:E.
    + apply str_eqb_eq in E. subst k'.
      intros [Heq | Hin]; [| left; right; exact Hin].
      injection Heq as <- <-. right. split; reflexivity.
    + intros [Heq | Hin]; [left; left; exact Heq |].
      destruct (IH Hin) as [Hd | Hkv]; [left; right; exact Hd |].
      right. exact Hkv.
Qed.

Lemma match_columns_source (column_mapping : list (str * str))
    (names cols : list str) (best : option str * Q) (c : str) (q : Q) :
  fold_left (match_column column_mapping names) cols best = (Some c, q) ->
  fst best = Some c \/ In c cols.
Proof.
  revert best. induction cols as [| col cols IH]; intro best;
    cbn [fold_left].
  - intro Hb. left. rewrite Hb. reflexivity.
  - intro Hb. destruct (IH _ Hb) as [Hbest | Hin];
      [| right; right; exact Hin].
    unfold match_column in Hbest.
    destruct (str_mem col (map snd column_mapping));
      [left; exact Hbest |].
    destruct (match_names col (strip (lower col)) names best)
      as [b sc] eqn:Enames.
    cbn [fst] in Hbest. subst b.
    destruct (match_names_best _ _ _ _ _ _ Enames) as [-> | Hb'].
    + right. left. reflexivity.
    + left. exact Hb'.
Qed.

Lemma field_step_entries (cols : list str) (m : list (str * str))
    (field : str * list str) (f c : str) :
  In (f, c) (field_step cols m field) ->
  In (f, c) m \/ (f = fst field /\ In c cols /\ c <> []).
Proof.
  destruct field as [standard names]. unfold field_step.
  destruct (fold_left (match_column m names) cols (None, 0))
    as [[col |] q] eqn:Ebest; [| intro Hin; left; exact Hin].
  destruct (is_empty col) eqn:Eempty; cbn [negb andb];
    [intro Hin; left; exact Hin |].
  destruct (Qltb 50 q); [| intro Hin; left; exact Hin].
  intro Hin. destruct (dict_set_entries _ _ _ _ _ Hin) as [Hm | [-> ->]];
    [left; exact Hm |].
  right. cbn [fst]. split; [reflexivity |]. split.
  - destruct (match_columns_source _ _ _ _ _ _ Ebest) as [Hnone | Hcol];
      [discriminate | exact Hcol].
  - intros ->. discriminate.
Qed.

(** X30.  Whatever the column names, [analyze_columns] maps standard fields
    of [field_mapping] to column names of the table: every key is a
    standard field, every value is a column name of the table with its
    white space stripped, and no value is the empty name. *)
Theorem analyze_columns_entries (df_columns : list str) (f c : str) :
  In (f, c) (analyze_columns df_columns) ->
  In f (map fst field_mapping) /\ In c (map strip df_columns) /\ c <> [].
Proof.
  unfold analyze_columns. cbv zeta.
  assert (Hfold : forall fields (m : list (str * str)),
            In (f, c) (fold_left (field_step (map strip df_columns))
                         fields m) ->
            In (f, c) m \/
            (In f (map fst fields) /\ In c (map strip df_columns) /\
             c <> [])).
  { induction fields as [| field fields IH]; intros m Hin;
      cbn [fold_left] in Hin; [left; exact Hin |].
    destruct (IH _ Hin) as [Hstep | (Hf & Hc & Hne)].
    - destruct (field_step_entries _ _ _ _ _ Hstep) as [Hm | (Hf & Hc & Hne)];
        [left; exact Hm |].
      right. split; [left; symmetry; exact Hf | split; assumption].
    - right. split; [right; exact Hf | split; assumption]. }
  intro Hin. destruct (Hfold field_mapping [] Hin) as [[] | Hres].
  exact Hres.
Qed.

End MappedColumns.

(** The table with the columns " 年龄 " and "备注": the age field is mapped to
    the first of them, stripped. *)
Lemma analyze_columns_entries_witness :
  In (u "age", u "年龄") (Converter.analyze_columns [u " 年龄 "; u "备注"]) /\
  In (u "age") (map fst Converter.field_mapping) /\
  In (u "年龄") (map strip [u " 年龄 "; u "备注"]) /\ u "年龄" <> [].
Proof.
  assert (Hin : In (u "age", u "年龄")
                  (Converter.analyze_columns [u " 年龄 "; u "备注"]))
    by (vm_compute; left; reflexivity).
  split; [exact Hin |].
  exact (analyze_columns_entries [u " 年龄 "; u "备注"] (u "age") (u "年龄")
           Hin).
Defined.
